(** * nuplan/planning/script/run_ml.py

    A shallow embedding of the simulation launcher: the module-level
    resolution of the Hydra configuration path, [run_simulation],
    [clean_up_s3_artifacts] and [main], with the properties of its
    specification stated over the embedding. *)

From Stdlib Require Import ZArith String Ascii List Lia Bool.
From stdpp Require Import base option gmap strings list.

Set Warnings "-register-all".

Local Open Scope string_scope.
Local Open Scope Z_scope.
Local Open Scope list_scope.

(** ** Python strings *)

Module PyStr.

(** [len(s)] *)
Definition len (s : string) : Z := Z.of_nat (String.length s).

(** [s.startswith(p)] *)
Definition startswith (s p : string) : bool := String.prefix p s.

(** [s.endswith("/")], the only use the module makes of [endswith]. *)
Fixpoint ends_with_char (c : ascii) (s : string) : bool :=
  match s with
  | EmptyString => false
  | String a EmptyString => Ascii.eqb a c
  | String _ rest => ends_with_char c rest
  end.

(** Scan of [s.find(sub)]: [i] is the index of the head of [s] in the
    string the search was started on. *)
Fixpoint find_from (s sub : string) (i : Z) : Z :=
  if String.prefix sub s then i
  else match s with
       | EmptyString => -1
       | String _ rest => find_from rest sub (i + 1)
       end.

(** [s.find(sub)]: the lowest index at which [sub] occurs, [-1] if none. *)
Definition find (s sub : string) : Z := find_from s sub 0.

(** [s.rfind(c)] for a one-character [c]: the highest index, [-1] if none. *)
Fixpoint rfind_char (s : string) (c : ascii) : Z :=
  match s with
  | EmptyString => -1
  | String a rest =>
      let r := rfind_char rest c in
      if r =? -1 then (if Ascii.eqb a c then 0 else -1) else r + 1
  end.

Fixpoint take (n : nat) (s : string) : string :=
  match n, s with
  | S n', String a rest => String a (take n' rest)
  | _, _ => EmptyString
  end.

Fixpoint drop (n : nat) (s : string) : string :=
  match n, s with
  | S n', String _ rest => drop n' rest
  | _, _ => s
  end.

(** A slice bound as Python clamps it: negative bounds count from the end. *)
Definition clamp (s : string) (n : Z) : nat :=
  if n <? 0 then Z.to_nat (Z.max 0 (len s + n)) else Z.to_nat n.

(** [s[:n]] *)
Definition slice_to (s : string) (n : Z) : string := take (clamp s n) s.

(** [s[n:]] *)
Definition slice_from (s : string) (n : Z) : string := drop (clamp s n) s.

End PyStr.

(** ** posixpath *)

Module PosixPath.

Definition sep : string := "/".

(** [os.path.join(a, b)] *)
Definition join (a b : string) : string :=
  if PyStr.startswith b sep then b
  else if (String.eqb a "" || PyStr.ends_with_char "/" a)%bool then a +:+ b
  else a +:+ sep +:+ b.

(** [os.path.basename(p)]: [i = p.rfind('/') + 1; return p[i:]] *)
Definition basename (p : string) : string :=
  let i := PyStr.rfind_char p "/" + 1 in
  PyStr.slice_from p i.

End PosixPath.

(** ** Path Resolver: the module-level computation of [CONFIG_PATH] *)

(** [os.environ] *)
Abbreviation Environ := (gmap string string).

(** [os.getenv(key, default)] *)
Definition getenv (environ : Environ) (key default : string) : string :=
  match environ !! key with
  | Some v => v
  | None => default
  end.

(** Lines 27-33: three assignments to the module variable, in order. *)
Definition CONFIG_PATH (environ : Environ) : string :=
  let CONFIG_PATH := getenv environ "NUPLAN_HYDRA_CONFIG_PATH" "config/simulation" in
  let CONFIG_PATH :=
    match environ !! "NUPLAN_HYDRA_CONFIG_PATH" with
    | Some _ => PosixPath.join "../../../../" CONFIG_PATH
    | None => CONFIG_PATH
    end in
  let CONFIG_PATH :=
    if negb (String.eqb (PosixPath.basename CONFIG_PATH) "simulation")
    then PosixPath.join CONFIG_PATH "simulation"
    else CONFIG_PATH in
  CONFIG_PATH.

Definition CONFIG_NAME : string := "default_simulation".

(** ** pathlib *)

Module Pathlib.

(** [s.split("/")] *)
Fixpoint split_sep (s : string) : list string :=
  match s with
  | EmptyString => [""]
  | String c rest =>
      let r := split_sep rest in
      if Ascii.eqb c "/" then "" :: r
      else match r with
           | hd :: tl => String c hd :: tl
           | [] => [String c ""]
           end
  end.

(** [s.lstrip("/")] *)
Fixpoint lstrip_sep (s : string) : string :=
  match s with
  | String c rest => if Ascii.eqb c "/" then lstrip_sep rest else s
  | EmptyString => s
  end.

(** [sep.join(parts)] *)
Fixpoint join_sep (parts : list string) : string :=
  match parts with
  | [] => ""
  | [p] => p
  | p :: rest => p +:+ "/" +:+ join_sep rest
  end.

(** A pure POSIX path as [pathlib] keeps it: the root and the components. *)
Record Path := { root : string; parts : list string }.

(** The root [splitroot] finds: exactly two leading slashes are kept,
    any other number of them is one. *)
Definition splitroot (s : string) : string * string :=
  if PyStr.startswith s "/" then
    let stripped := lstrip_sep s in
    if PyStr.len s - PyStr.len stripped =? 2 then ("//", stripped) else ("/", stripped)
  else ("", s).

Definition keep_part (x : string) : bool :=
  negb (String.eqb x "") && negb (String.eqb x ".").

(** [Path(s)]: empty and [.] components are dropped. *)
Definition of_str (s : string) : Path :=
  let '(r, rel) := splitroot s in
  {| root := r; parts := List.filter keep_part (split_sep rel) |}.

(** [str(p)] *)
Definition to_str (p : Path) : string :=
  let body := join_sep (parts p) in
  if String.eqb (root p) "" then (if String.eqb body "" then "." else body)
  else root p +:+ body.

End Pathlib.

Abbreviation Path := Pathlib.Path.

(** ** Data model *)

(** Values held by a configuration node. *)
Inductive Value :=
| VNone
| VBool (b : bool)
| VInt (n : Z)
| VStr (s : string)
| VDict (items : list (string * Value)).

(** An OmegaConf [DictConfig] at top level: its [struct] flag and its keys. *)
Record DictConfig := { struct_flag : option bool; content : gmap string Value }.

(** Opaque objects of the framework, known by identity only. *)
Inductive Planner := planner_obj (id : nat).
Inductive Worker := worker_obj (id : nat).
Inductive Callback := callback_obj (id : nat).
Inductive Runner := runner_obj (id : nat).
Inductive Profiler := profiler_obj (id : nat).

(** The [planners] argument:
    [Optional[Union[AbstractPlanner, List[AbstractPlanner]]]]. *)
Inductive Planners :=
| PNone
| PSingle (p : Planner)
| PList (ps : list Planner).

(** What [set_up_common_builder] returns. *)
Record CommonBuilder := {
  output_dir : Path;
  worker : Worker;
  profiler : option Profiler }.

Inductive Exn :=
| AssertionError (msg : string)
| ConfigAttributeError (key : string)
| ConfigKeyError (key : string)
| ConfigTypeError
| TypeError
| FileNotFoundError (path : string)
| CollaboratorError (code : nat).

Inductive Res (A : Type) :=
| Ok (a : A)
| Raise (e : Exn).
Arguments Ok {A} a.
Arguments Raise {A} e.

(** What the process does that can be seen from outside, in order. *)
Inductive Event :=
| EvSeedEverything (seed : Value)
| EvSetUpCommonBuilder (cfg : DictConfig) (profiler_name : string)
| EvBuildCallbacksWorker (cfg : DictConfig)
| EvBuildSimulationCallbacks (cfg : DictConfig) (out : Path) (w : Worker)
| EvLogInfo (msg : string)
| EvSetStruct (flag : bool)
| EvPop (key : string)
| EvBuildSimulations (cfg : DictConfig) (callbacks : list Callback) (w : Worker)
    (pre_built_planners : Planners) (callbacks_worker : Worker)
| EvSaveProfiler (p : Profiler) (name : string)
| EvRunRunners (runners : list Runner) (common_builder : CommonBuilder)
    (cfg : DictConfig) (profiler_name : string)
| EvGetcwd
| EvRmtree (path : string).

(** The mutable state run_ml.py works on: the configuration object it was
    handed, the working directory and file system of the process, and the
    events so far, oldest first. *)
Record World := {
  w_cfg : DictConfig;
  w_cwd : string;
  w_fs : gset string;
  w_trace : list Event }.

Definition with_cfg (c : DictConfig) (w : World) : World :=
  {| w_cfg := c; w_cwd := w_cwd w; w_fs := w_fs w; w_trace := w_trace w |}.
Definition with_fs (f : gset string) (w : World) : World :=
  {| w_cfg := w_cfg w; w_cwd := w_cwd w; w_fs := f; w_trace := w_trace w |}.
Definition with_trace (t : list Event) (w : World) : World :=
  {| w_cfg := w_cfg w; w_cwd := w_cwd w; w_fs := w_fs w; w_trace := t |}.

(** Modelled from the spec: the builder functions of nuplan.planning.script
    and [is_s3_path] of nuplan.common.utils.s3_utils are not part of this
    file; section 6 gives their contracts, each a call on its
    arguments that returns a value or fails. *)
Record Collaborators := {
  on_set_up_common_builder : DictConfig → string → Res CommonBuilder;
  on_build_callbacks_worker : DictConfig → Res Worker;
  on_build_simulation_callbacks : DictConfig → Path → Worker → Res (list Callback);
  on_build_simulations :
    DictConfig → list Callback → Worker → Planners → Worker → Res (list Runner);
  on_save_profiler : Profiler → string → Res unit;
  on_run_runners : list Runner → CommonBuilder → DictConfig → string → Res unit;
  is_s3_path : Path → bool }.

(** ** State and exception monad *)

Definition M (A : Type) : Type := World → Res A * World.

Definition ret {A} (a : A) : M A := λ w, (Ok a, w).

Definition bind {A B} (m : M A) (k : A → M B) : M B :=
  λ w, match m w with
       | (Ok a, w') => k a w'
       | (Raise e, w') => (Raise e, w')
       end.

Definition raise {A} (e : Exn) : M A := λ w, (Raise e, w).

Definition emit (e : Event) : M unit :=
  λ w, (Ok tt, with_trace (w_trace w ++ [e]) w).

Definition lift {A} (r : Res A) : M A := λ w, (r, w).

Definition get_cfg : M DictConfig := λ w, (Ok (w_cfg w), w).

Notation "x <- m ;; k" := (bind m (fun x => k))
  (at level 100, m at next level, right associativity).
Notation "m ;; k" := (bind m (fun _ => k))
  (at level 100, right associativity).

(** ** OmegaConf operations on the configuration object *)

(** [cfg.key]: attribute access; a key the configuration lacks raises. *)
Definition cfg_getattr (key : string) : M Value :=
  λ w, match content (w_cfg w) !! key with
       | Some v => (Ok v, w)
       | None => (Raise (ConfigAttributeError key), w)
       end.

(** [key in cfg.keys()] *)
Definition cfg_contains (key : string) : M bool :=
  λ w, (Ok (match content (w_cfg w) !! key with Some _ => true | None => false end), w).

(** [OmegaConf.set_struct(cfg, flag)] *)
Definition set_struct (flag : bool) : M unit :=
  emit (EvSetStruct flag) ;;
  λ w, (Ok tt, with_cfg {| struct_flag := Some flag; content := content (w_cfg w) |} w).

(** [cfg.pop(key)]: refused in struct mode; a key the configuration lacks
    raises, no default being given. *)
Definition cfg_pop (key : string) : M Value :=
  emit (EvPop key) ;;
  λ w, match struct_flag (w_cfg w) with
       | Some true => (Raise ConfigTypeError, w)
       | _ =>
           match content (w_cfg w) !! key with
           | Some v =>
               (Ok v, with_cfg {| struct_flag := struct_flag (w_cfg w);
                                  content := delete key (content (w_cfg w)) |} w)
           | None => (Raise (ConfigKeyError key), w)
           end
       end.

(** ** Python built-ins and standard library *)

(** Truth value of the [planners] argument: [None] and the empty list are
    false, a planner object (it defines neither [__bool__] nor [__len__])
    and a non-empty list are true. *)
Definition truthy (planners : Planners) : bool :=
  match planners with
  | PNone => false
  | PSingle _ => true
  | PList [] => false
  | PList (_ :: _) => true
  end.

(** [x is None] *)
Definition is_None (v : Value) : bool :=
  match v with
  | VNone => true
  | _ => false
  end.

(** [assert cond, msg] *)
Definition py_assert (cond : bool) (msg : string) : M unit :=
  if cond then ret tt else raise (AssertionError msg).

(** [Path(v)]: only a string makes a path. *)
Definition Path_of (v : Value) : M Path :=
  match v with
  | VStr s => ret (Pathlib.of_str s)
  | _ => raise TypeError
  end.

(** [logger.info(msg)] *)
Definition logger_info (msg : string) : M unit := emit (EvLogInfo msg).

(** [pl.seed_everything(seed, workers=True)] *)
Definition seed_everything (seed : Value) : M unit := emit (EvSeedEverything seed).

(** [os.getcwd()] *)
Definition os_getcwd : M string :=
  emit EvGetcwd ;; λ w, (Ok (w_cwd w), w).

(** [q] is the directory [p] or lies beneath it. *)
Definition at_or_beneath (p q : string) : bool :=
  String.eqb q p || PyStr.startswith q (p +:+ "/").

(** [shutil.rmtree(path)]: the path must exist; it goes with all beneath it. *)
Definition rmtree (path : string) : M unit :=
  emit (EvRmtree path) ;;
  λ w, if bool_decide (path ∈ w_fs w)
       then (Ok tt, with_fs (filter (λ q, at_or_beneath path q = false) (w_fs w)) w)
       else (Raise (FileNotFoundError path), w).

(** ** Observations on a run *)

(** The events a computation adds to the trace of the world it starts in. *)
Definition emitted {A} (m : M A) (w : World) : list Event :=
  drop (length (w_trace w)) (w_trace (m w).2).

(** The steps by which run_ml.py itself changes the configuration object. *)
Definition is_cfg_mutation (e : Event) : bool :=
  match e with
  | EvSetStruct _ | EvPop _ => true
  | _ => false
  end.

(** Calls of the builder collaborators and of the runner execution. *)
Definition is_collaborator_call (e : Event) : bool :=
  match e with
  | EvSetUpCommonBuilder _ _ | EvBuildCallbacksWorker _
  | EvBuildSimulationCallbacks _ _ _ | EvBuildSimulations _ _ _ _ _
  | EvRunRunners _ _ _ _ => true
  | _ => false
  end.

(** Construction: context, callback worker, callbacks, runners. *)
Definition is_construction (e : Event) : bool :=
  match e with
  | EvSetUpCommonBuilder _ _ | EvBuildCallbacksWorker _
  | EvBuildSimulationCallbacks _ _ _ | EvBuildSimulations _ _ _ _ _ => true
  | _ => false
  end.

(** Execution: the call of [run_runners]. *)
Definition is_execution (e : Event) : bool :=
  match e with
  | EvRunRunners _ _ _ _ => true
  | _ => false
  end.

(** The profiling session an event names, if it names one. *)
Definition session_name (e : Event) : option string :=
  match e with
  | EvSetUpCommonBuilder _ n | EvSaveProfiler _ n | EvRunRunners _ _ _ n => Some n
  | _ => None
  end.

(** The unlock, remove, relock bracket around the removal of a key. *)
Definition pop_bracket (key : string) : list Event :=
  [EvSetStruct false; EvPop key; EvSetStruct true].

(** What only the Artifact Cleaner does: asking for the working directory
    and deleting a tree. *)
Definition is_cleanup_event (e : Event) : bool :=
  match e with
  | EvGetcwd | EvRmtree _ => true
  | _ => false
  end.

(** [clean_up_s3_artifacts] begins by asking for the working directory, and
    nothing else in the file does. *)
Definition cleaner_invoked (evs : list Event) : Prop := EvGetcwd ∈ evs.

(** [sub] occurs in [s]. *)
Definition contains (s sub : string) : Prop :=
  ∃ a b, s = a +:+ sub +:+ b.

(** ** The program *)

Section Program.

Variable ext : Collaborators.

(** Calls of the collaborators, each on the configuration object as it is
    at the time of the call. *)

Definition set_up_common_builder (profiler_name : string) : M CommonBuilder :=
  cfg <- get_cfg ;;
  emit (EvSetUpCommonBuilder cfg profiler_name) ;;
  lift (on_set_up_common_builder ext cfg profiler_name).

Definition build_callbacks_worker : M Worker :=
  cfg <- get_cfg ;;
  emit (EvBuildCallbacksWorker cfg) ;;
  lift (on_build_callbacks_worker ext cfg).

Definition build_simulation_callbacks (out : Path) (w : Worker) : M (list Callback) :=
  cfg <- get_cfg ;;
  emit (EvBuildSimulationCallbacks cfg out w) ;;
  lift (on_build_simulation_callbacks ext cfg out w).

Definition build_simulations (callbacks : list Callback) (w : Worker)
    (pre_built_planners : Planners) (callbacks_worker : Worker) : M (list Runner) :=
  cfg <- get_cfg ;;
  emit (EvBuildSimulations cfg callbacks w pre_built_planners callbacks_worker) ;;
  lift (on_build_simulations ext cfg callbacks w pre_built_planners callbacks_worker).

Definition save_profiler (p : Profiler) (name : string) : M unit :=
  emit (EvSaveProfiler p name) ;;
  lift (on_save_profiler ext p name).

Definition run_runners (runners : list Runner) (common_builder : CommonBuilder)
    (profiler_name : string) : M unit :=
  cfg <- get_cfg ;;
  emit (EvRunRunners runners common_builder cfg profiler_name) ;;
  lift (on_run_runners ext runners common_builder cfg profiler_name).

(** Lines 56-60: the planner of the configuration gives way to planners
    handed in. [and] does not look at the keys when [planners] is false. *)
Definition merge_planners (planners : Planners) : M unit :=
  cond <- (if truthy planners then cfg_contains "planner" else ret false) ;;
  if cond : bool then
    logger_info "Using pre-instantiated planner. Ignoring planner in config" ;;
    set_struct false ;;
    _ <- cfg_pop "planner" ;;
    set_struct true
  else ret tt.

(** Lines 63-64: a planner object, and nothing else, is an instance of
    [AbstractPlanner]; it is wrapped in a list. *)
Definition normalize_planners (planners : Planners) : Planners :=
  match planners with
  | PSingle p => PList [p]
  | _ => planners
  end.

Definition run_simulation (planners : Planners) : M unit :=
  seed <- cfg_getattr "seed" ;;
  seed_everything seed ;;
  let profiler_name := "building_simulation" in
  common_builder <- set_up_common_builder profiler_name ;;
  callbacks_worker_pool <- build_callbacks_worker ;;
  callbacks <- build_simulation_callbacks (output_dir common_builder) callbacks_worker_pool ;;
  merge_planners planners ;;
  let planners := normalize_planners planners in
  runners <- build_simulations callbacks (worker common_builder) planners
               callbacks_worker_pool ;;
  match profiler common_builder with
  | Some p => save_profiler p profiler_name
  | None => ret tt
  end ;;
  logger_info "Running simulation..." ;;
  run_runners runners common_builder "running_simulation" ;;
  logger_info "Finished running simulation!".

Definition clean_up_s3_artifacts : M unit :=
  working_path <- os_getcwd ;;
  let s3_dirname := "s3:" in
  let s3_ind := PyStr.find working_path s3_dirname in
  if negb (s3_ind =? -1) then
    let local_s3_path :=
      PyStr.slice_to working_path
        (PyStr.find working_path s3_dirname + PyStr.len s3_dirname) in
    rmtree local_s3_path
  else ret tt.

Definition main : M unit :=
  v <- cfg_getattr "simulation_log_main_path" ;;
  py_assert (is_None v)
    "Simulation_log_main_path must not be set when running simulation." ;;
  run_simulation PNone ;;
  out <- cfg_getattr "output_dir" ;;
  p <- Path_of out ;;
  if is_s3_path ext p then clean_up_s3_artifacts else ret tt.

End Program.

(** Modelled from the spec: [is_s3_path] of nuplan.common.utils.s3_utils is
    not in this file; section 4.4 describes it as a simple scheme-prefix
    check on the output directory path. [main] hands it a [Path], in which
    pathlib has already folded the doubled slash of the scheme, so the
    prefix reads [s3:/] there. *)
Definition spec_is_s3_path (p : Path) : bool :=
  PyStr.startswith (Pathlib.to_str p) "s3:/".

(** ** Stub collaborators, for running the program on concrete inputs *)

Module Stub.

Definition common_builder (out : Path) (prof : option Profiler) : CommonBuilder :=
  {| output_dir := out; worker := worker_obj 0; profiler := prof |}.

(** Collaborators that all return; the build context takes its output
    directory from the configuration. *)
Definition ext (prof : option Profiler) : Collaborators :=
  {| on_set_up_common_builder := λ cfg _,
       match content cfg !! "output_dir" with
       | Some (VStr s) => Ok (common_builder (Pathlib.of_str s) prof)
       | _ => Raise (CollaboratorError 0)
       end;
     on_build_callbacks_worker := λ _, Ok (worker_obj 1);
     on_build_simulation_callbacks := λ _ _ _, Ok [callback_obj 0];
     on_build_simulations := λ _ _ _ _ _, Ok [runner_obj 0];
     on_save_profiler := λ _ _, Ok tt;
     on_run_runners := λ _ _ _ _, Ok tt;
     is_s3_path := spec_is_s3_path |}.

(** A configuration as Hydra composes it: struct mode on. *)
Definition cfg (out : string) (log_path : Value) : DictConfig :=
  {| struct_flag := Some true;
     content := {[ "seed" := VInt 0;
                   "output_dir" := VStr out;
                   "simulation_log_main_path" := log_path;
                   "planner" := VDict [("ml_planner", VDict [])] ]} |}.

Definition world (c : DictConfig) (cwd : string) (fs : list string) : World :=
  {| w_cfg := c; w_cwd := cwd; w_fs := list_to_set fs; w_trace := [] |}.

End Stub.

(** ** Further observations on a run *)

(** The calls a run makes to its collaborators, by kind. *)
Inductive CallKind :=
| KSetUp
| KCallbacksWorker
| KCallbacks
| KSimulations
| KSaveProfiler
| KRunRunners.

Definition call_kind (e : Event) : option CallKind :=
  match e with
  | EvSetUpCommonBuilder _ _ => Some KSetUp
  | EvBuildCallbacksWorker _ => Some KCallbacksWorker
  | EvBuildSimulationCallbacks _ _ _ => Some KCallbacks
  | EvBuildSimulations _ _ _ _ _ => Some KSimulations
  | EvSaveProfiler _ _ => Some KSaveProfiler
  | EvRunRunners _ _ _ _ => Some KRunRunners
  | _ => None
  end.

(** The kinds of the calls in a trace, in order. *)
Definition calls (evs : list Event) : list CallKind := omap call_kind evs.


Definition is_build_simulations (e : Event) : bool :=
  match e with
  | EvBuildSimulations _ _ _ _ _ => true
  | _ => false
  end.

(** The planner merge of lines 56-60 takes place in a run with these
    events: planners were handed in, the configuration has a [planner]
    key, and the run got as far as building the runners. *)
Definition merge_fires (planners : Planners) (cfg : DictConfig) (evs : list Event) : bool :=
  existsb is_build_simulations evs
  && truthy planners
  && match content cfg !! "planner" with Some _ => true | None => false end.

Definition is_rmtree (e : Event) : bool :=
  match e with
  | EvRmtree _ => true
  | _ => false
  end.

(** The calls of a run in which every collaborator returns, with and
    without a profiler in the build context. *)
Definition calls_with_profiler : list CallKind :=
  [KSetUp; KCallbacksWorker; KCallbacks; KSimulations; KSaveProfiler; KRunRunners].
Definition calls_without_profiler : list CallKind :=
  [KSetUp; KCallbacksWorker; KCallbacks; KSimulations; KRunRunners].

(** Collaborators of which [build_simulations] raises; the others return. *)
Definition ext_build_fails : Collaborators :=
  {| on_set_up_common_builder := λ _ _,
       Ok (Stub.common_builder (Pathlib.of_str "/local/exp1") None);
     on_build_callbacks_worker := λ _, Ok (worker_obj 1);
     on_build_simulation_callbacks := λ _ _ _, Ok [callback_obj 0];
     on_build_simulations := λ _ _ _ _ _, Raise (CollaboratorError 3);
     on_save_profiler := λ _ _, Ok tt;
     on_run_runners := λ _ _ _ _, Ok tt;
     is_s3_path := spec_is_s3_path |}.

(** * Properties *)

(** ** Proof automation *)

Ltac red_ops :=
  cbv beta iota zeta delta
    [run_simulation main clean_up_s3_artifacts merge_planners normalize_planners
     set_up_common_builder build_callbacks_worker build_simulation_callbacks
     build_simulations save_profiler run_runners seed_everything logger_info
     set_struct cfg_pop cfg_getattr cfg_contains py_assert Path_of os_getcwd rmtree
     get_cfg lift emit bind ret raise with_cfg with_trace with_fs truthy
     w_cfg w_trace w_cwd w_fs struct_flag content fst snd emitted pop_bracket].

(** Case analysis on the next thing the program looks at. *)
Ltac case_scrut :=
  match goal with
  | H : ?m !! ?k = _ |- context [match ?m !! ?k with _ => _ end] => rewrite H
  | |- context [match ?m !! ?k with _ => _ end] =>
      let E := fresh "Hget" in destruct (m !! k) eqn:E
  | |- context [match on_set_up_common_builder ?e ?c ?n with _ => _ end] =>
      let E := fresh "Hsetup" in destruct (on_set_up_common_builder e c n) eqn:E
  | |- context [match on_build_callbacks_worker ?e ?c with _ => _ end] =>
      let E := fresh "Hbcw" in destruct (on_build_callbacks_worker e c) eqn:E
  | |- context [match on_build_simulation_callbacks ?e ?c ?o ?w with _ => _ end] =>
      let E := fresh "Hbsc" in destruct (on_build_simulation_callbacks e c o w) eqn:E
  | |- context [match on_build_simulations ?e ?c ?a ?b ?p ?d with _ => _ end] =>
      let E := fresh "Hbs" in destruct (on_build_simulations e c a b p d) eqn:E
  | |- context [match on_save_profiler ?e ?p ?n with _ => _ end] =>
      let E := fresh "Hsave" in destruct (on_save_profiler e p n) eqn:E
  | |- context [match on_run_runners ?e ?r ?b ?c ?n with _ => _ end] =>
      let E := fresh "Hrun" in destruct (on_run_runners e r b c n) eqn:E
  | |- context [match profiler ?b with _ => _ end] =>
      let E := fresh "Hprof" in destruct (profiler b) eqn:E
  end.

(** Brings the events added by a run into the form of an explicit list. *)
Ltac norm_trace :=
  rewrite <- ?app_assoc, ?drop_app_length;
  rewrite ?app_nil_r, ?drop_all;
  cbn [app].

Ltac run_cases := red_ops; repeat (case_scrut; red_ops); norm_trace.

(** Finds the positions at which an explicit list can hold the event of [H]. *)
Ltac at_index H i :=
  repeat first [ discriminate H
               | destruct i as [|i]; progress cbn [lookup list_lookup] in H ];
  try discriminate H.

(** Names the outcome and the events of a run, so that the case analysis
    goes through the program once. *)
Ltac run_abstract r evs :=
  intros r evs;
  match goal with
  | r := ?a, evs := ?b |- _ =>
      assert (Hr_eq : a = r) by reflexivity;
      assert (Hevs_eq : b = evs) by reflexivity
  end;
  clearbody r evs;
  match goal with
  | Hr : _ = r, He : _ = evs |- _ => revert Hr He
  end.

(** ** Strings *)

Lemma str_app_nil b : "" +:+ b = b.
Proof. reflexivity. Qed.

Lemma str_app_cons c a b : String c a +:+ b = String c (a +:+ b).
Proof. reflexivity. Qed.

Ltac str_simp :=
  rewrite ?str_app_cons, ?str_app_nil;
  cbn [String.length String.prefix PyStr.take PyStr.drop].

Lemma len_nonneg s : 0 ≤ PyStr.len s.
Proof. unfold PyStr.len. lia. Qed.

Lemma len_app a b : PyStr.len (a +:+ b) = PyStr.len a + PyStr.len b.
Proof.
  unfold PyStr.len. induction a as [|c a IH]; str_simp; lia.
Qed.

Lemma app_assoc_str a b c : (a +:+ b) +:+ c = a +:+ b +:+ c.
Proof.
  induction a as [|x a IH]; str_simp; [reflexivity | now rewrite IH].
Qed.

Lemma prefix_iff p s : String.prefix p s = true ↔ ∃ r, s = p +:+ r.
Proof.
  revert s. induction p as [|c p IH]; intros s.
  - split; [intros _; exists s; reflexivity | intros _; destruct s; reflexivity].
  - destruct s as [|d s]; cbn [String.prefix].
    + split; [discriminate | intros [r Hr]; discriminate Hr].
    + destruct (ascii_dec c d) as [->|Hne].
      * rewrite IH. split; intros [r Hr]; exists r;
          rewrite str_app_cons in *; congruence.
      * split; [discriminate | intros [r Hr]; rewrite str_app_cons in Hr; congruence].
Qed.

Lemma take_app_length a b : PyStr.take (String.length a) (a +:+ b) = a.
Proof.
  induction a as [|c a IH]; str_simp.
  - destruct b; reflexivity.
  - now rewrite IH.
Qed.

Lemma drop_app_length_str a b : PyStr.drop (String.length a) (a +:+ b) = b.
Proof.
  induction a as [|c a IH]; str_simp.
  - destruct b; reflexivity.
  - exact IH.
Qed.

(** Two prefixes of one string that are equally long are the same. *)
Lemma app_inj_length a a' b b' :
  a +:+ b = a' +:+ b' → String.length a = String.length a' → a = a'.
Proof.
  intros Heq Hlen.
  rewrite <- (take_app_length a b), Heq, Hlen. apply take_app_length.
Qed.

(** What the scan of [find] returns: [-1] when [sub] does not occur, else
    the start of its first occurrence. *)
Lemma find_from_spec sub s k :
  (PyStr.find_from s sub k = -1 ∧ ¬ contains s sub)
  ∨ (∃ a b, s = a +:+ sub +:+ b
            ∧ PyStr.find_from s sub k = k + PyStr.len a
            ∧ ∀ a' b', s = a' +:+ sub +:+ b' →
                       (String.length a ≤ String.length a')%nat).
Proof.
  revert k. induction s as [|c s IH]; intros k.
  - cbn [PyStr.find_from]. destruct (String.prefix sub "") eqn:Hp.
    + right. apply prefix_iff in Hp as [r Hr].
      exists "", r. split; [exact Hr|].
      split; [unfold PyStr.len | intros]; cbn [String.length]; lia.
    + left. split; [reflexivity|]. intros (a & b & Hab).
      destruct a; [|discriminate Hab].
      assert (String.prefix sub "" = true) by (apply prefix_iff; eauto).
      congruence.
  - cbn [PyStr.find_from]. destruct (String.prefix sub (String c s)) eqn:Hp.
    + right. apply prefix_iff in Hp as [r Hr].
      exists "", r. split; [exact Hr|].
      split; [unfold PyStr.len | intros]; cbn [String.length]; lia.
    + assert (Hhead : ∀ a' b', String c s = a' +:+ sub +:+ b' →
                ∃ a'', a' = String c a'' ∧ s = a'' +:+ sub +:+ b').
      { intros a' b' Hab. destruct a' as [|x a''].
        - assert (String.prefix sub (String c s) = true) by (apply prefix_iff; eauto).
          congruence.
        - rewrite str_app_cons in Hab. injection Hab as -> ->. eauto. }
      destruct (IH (k + 1)) as [[Hr Hno]|(a & b & Hs & Hr & Hmin)].
      * left. split; [exact Hr|]. intros (a' & b' & Hab).
        destruct (Hhead _ _ Hab) as (a'' & -> & Hs). apply Hno. exists a'', b'. exact Hs.
      * right. exists (String c a), b. split; [rewrite str_app_cons; congruence|].
        split.
        -- rewrite Hr. unfold PyStr.len. cbn [String.length]. lia.
        -- intros a' b' Hab. destruct (Hhead _ _ Hab) as (a'' & -> & Hs').
           specialize (Hmin _ _ Hs'). cbn [String.length]. lia.
Qed.

(** [s.find(sub) == -1] exactly when [sub] does not occur in [s]. *)
Lemma find_none s sub : PyStr.find s sub = -1 ↔ ¬ contains s sub.
Proof.
  unfold PyStr.find.
  destruct (find_from_spec sub s 0) as [[Hr Hno]|(a & b & Hs & Hr & _)].
  - tauto.
  - split.
    + pose proof (len_nonneg a). lia.
    + intros Hno. exfalso. apply Hno. exists a, b. exact Hs.
Qed.

(** Where [sub] occurs, the slice up to the end of the match found is the
    shortest prefix of [s] that ends in [sub]. *)
Lemma find_first s sub :
  contains s sub →
  ∃ a b, s = a +:+ sub +:+ b
         ∧ PyStr.find s sub = PyStr.len a
         ∧ PyStr.slice_to s (PyStr.find s sub + PyStr.len sub) = a +:+ sub
         ∧ ∀ a' b', s = a' +:+ sub +:+ b' → (String.length a ≤ String.length a')%nat.
Proof.
  intros Hc. unfold PyStr.find.
  destruct (find_from_spec sub s 0) as [[Hr Hno]|(a & b & Hs & Hr & Hmin)]; [tauto|].
  exists a, b. split; [exact Hs|]. split; [lia|]. split; [|exact Hmin].
  rewrite Hr. unfold PyStr.slice_to, PyStr.clamp.
  pose proof (len_nonneg a). pose proof (len_nonneg sub).
  destruct (Z.ltb_spec (0 + PyStr.len a + PyStr.len sub) 0) as [Hlt|_]; [lia|].
  replace (Z.to_nat (0 + PyStr.len a + PyStr.len sub))
    with (String.length (a +:+ sub)).
  - rewrite Hs at 1. rewrite <- app_assoc_str. apply take_app_length.
  - apply Nat2Z.inj. rewrite Z2Nat.id by lia.
    change (Z.of_nat (String.length (a +:+ sub))) with (PyStr.len (a +:+ sub)).
    rewrite len_app. lia.
Qed.

(** ** Shared facts about [run_simulation] *)

(** A run only ever adds events at the end of the trace. *)
Lemma run_simulation_trace ext planners w :
  w_trace (run_simulation ext planners w).2
  = w_trace w ++ emitted (run_simulation ext planners) w.
Proof.
  destruct w as [[sf c] d f t]; destruct planners as [|p|[|p ps]].
  all: run_cases; rewrite ?app_nil_r; reflexivity.
Qed.

(** It touches neither the working directory nor the file system. *)
Lemma run_simulation_frame ext planners w :
  w_cwd (run_simulation ext planners w).2 = w_cwd w
  ∧ w_fs (run_simulation ext planners w).2 = w_fs w
  ∧ List.filter is_cleanup_event (emitted (run_simulation ext planners) w) = [].
Proof.
  destruct w as [[sf c] d f t]; destruct planners as [|p|[|p ps]].
  all: run_cases; exact (conj eq_refl (conj eq_refl eq_refl)).
Qed.

(** Without planners handed in, the configuration object stays as it is. *)
Lemma run_simulation_falsy_cfg ext planners w :
  truthy planners = false →
  w_cfg (run_simulation ext planners w).2 = w_cfg w.
Proof.
  destruct w as [[sf c] d f t]; destruct planners as [|p|[|p ps]]; try discriminate.
  all: intros _; run_cases; reflexivity.
Qed.

(** Where no planners are handed in, no step changes the configuration,
    and the runners are built from it and from the argument as given. *)
Lemma run_simulation_falsy ext planners w :
  truthy planners = false →
  let r := run_simulation ext planners w in
  let evs := emitted (run_simulation ext planners) w in
  List.filter is_cfg_mutation evs = []
  ∧ (∀ i c cbs wk pl cw,
       evs !! i = Some (EvBuildSimulations c cbs wk pl cw) →
       c = w_cfg w ∧ pl = planners)
  ∧ (r.1 = Ok tt →
     ∃ i cbs wk cw, evs !! i = Some (EvBuildSimulations (w_cfg w) cbs wk planners cw)).
Proof.
  destruct w as [[sf c] d f t]; destruct planners as [|p|[|p ps]]; try discriminate.
  all: intros _; run_cases.
  all: split; [reflexivity|split].
  all: try (intros i c0 cbs wk pl cw H; at_index H i;
            injection H as <- <- <- <- <-; split; reflexivity).
  all: intros H; try discriminate H.
  all: exists 4%nat; do 3 eexists; reflexivity.
Qed.

(** ** Run Orchestrator: the planner merge *)

(** C2: when a single planner [P] or a non-empty list of planners is handed
    in and the configuration has a [planner] key, every call of
    [build_simulations] comes after the removal of that key, sees a
    configuration without it (and otherwise as it was), and receives the
    normalized planners, which for a single [P] is the list [[P]]; a run
    that completes has made that call. *)
Theorem C2_prebuilt_planners_replace_config_planner ext planners w :
  ((∃ P, planners = PSingle P) ∨ (∃ P ps, planners = PList (P :: ps))) →
  is_Some (content (w_cfg w) !! "planner") →
  let r := run_simulation ext planners w in
  let evs := emitted (run_simulation ext planners) w in
  (∀ i c cbs wk pl cw,
     evs !! i = Some (EvBuildSimulations c cbs wk pl cw) →
     content c !! "planner" = None
     ∧ (∀ k, k ≠ "planner" → content c !! k = content (w_cfg w) !! k)
     ∧ pl = normalize_planners planners
     ∧ (∀ P, planners = PSingle P → pl = PList [P])
     ∧ ∃ j, (j < i)%nat ∧ evs !! j = Some (EvPop "planner"))
  ∧ (r.1 = Ok tt →
     content (w_cfg r.2) !! "planner" = None
     ∧ ∃ i c cbs wk cw,
         evs !! i = Some (EvBuildSimulations c cbs wk (normalize_planners planners) cw)).
Proof.
  destruct w as [[sf c] d f t].
  intros [[P ->]|(P & ps & ->)] [v Hv]; cbn [w_cfg content] in Hv.
  all: run_cases; try discriminate Hv.
  all: split;
    [ intros i c0 cbs wk pl cw H; at_index H i;
      (injection H as <- <- <- <- <-;
       refine (conj _ (conj _ (conj _ (conj _ _))));
       [ apply lookup_delete_eq
       | intros k Hk; apply lookup_delete_ne; congruence
       | reflexivity
       | intros P' HP; try discriminate HP; injection HP as <-; reflexivity
       | exists 6%nat; split; [lia | reflexivity] ])
    | intros H; try discriminate H;
      (split; [apply lookup_delete_eq | exists 8%nat; do 4 eexists; reflexivity]) ].
Qed.

Lemma C2_prebuilt_planners_witness :
  let w := Stub.world (Stub.cfg "/local/exp1" VNone) "/tmp" [] in
  let P := planner_obj 1 in
  content (w_cfg (run_simulation (Stub.ext None) (PSingle P) w).2) !! "planner" = None
  ∧ ∃ i c cbs wk cw,
      emitted (run_simulation (Stub.ext None) (PSingle P)) w !! i
      = Some (EvBuildSimulations c cbs wk (PList [P]) cw).
Proof.
  intros w P.
  apply (C2_prebuilt_planners_replace_config_planner (Stub.ext None) (PSingle P) w).
  - left. exists P. reflexivity.
  - exists (VDict [("ml_planner", VDict [])]). vm_compute. reflexivity.
  - vm_compute. reflexivity.
Defined.

(** C3: with [planners=None] the configuration object is left exactly as it
    was, so a [planner] key it has is retained; no step of the run changes
    the configuration, and [build_simulations] is called on it with [None]
    as [pre_built_planners]. Normalization returns [None] and any list
    unchanged. *)
Theorem C3_none_leaves_config_and_passes_through ext w :
  let r := run_simulation ext PNone w in
  let evs := emitted (run_simulation ext PNone) w in
  w_cfg r.2 = w_cfg w
  ∧ (∀ v, content (w_cfg w) !! "planner" = Some v →
          content (w_cfg r.2) !! "planner" = Some v)
  ∧ List.filter is_cfg_mutation evs = []
  ∧ (∀ i c cbs wk pl cw,
       evs !! i = Some (EvBuildSimulations c cbs wk pl cw) →
       c = w_cfg w ∧ pl = PNone)
  ∧ (r.1 = Ok tt →
     ∃ i cbs wk cw, evs !! i = Some (EvBuildSimulations (w_cfg w) cbs wk PNone cw))
  ∧ normalize_planners PNone = PNone
  ∧ (∀ ps, normalize_planners (PList ps) = PList ps).
Proof.
  intros r evs.
  pose proof (run_simulation_falsy_cfg ext PNone w eq_refl) as Hcfg.
  destruct (run_simulation_falsy ext PNone w eq_refl) as (Hmut & Hbs & Hlive).
  refine (conj Hcfg (conj _ (conj Hmut (conj Hbs (conj Hlive (conj eq_refl _)))))).
  - intros v Hv. subst r. rewrite Hcfg. exact Hv.
  - intros ps. reflexivity.
Qed.

Lemma C3_none_witness :
  let w := Stub.world (Stub.cfg "/local/exp1" VNone) "/tmp" [] in
  content (w_cfg (run_simulation (Stub.ext None) PNone w).2) !! "planner"
  = Some (VDict [("ml_planner", VDict [])])
  ∧ ∃ i cbs wk cw,
      emitted (run_simulation (Stub.ext None) PNone) w !! i
      = Some (EvBuildSimulations (w_cfg w) cbs wk PNone cw).
Proof.
  intros w.
  destruct (C3_none_leaves_config_and_passes_through (Stub.ext None) w)
    as (_ & Hkey & _ & _ & Hlive & _).
  split.
  - apply Hkey. vm_compute. reflexivity.
  - apply Hlive. vm_compute. reflexivity.
Defined.

(** C10: an empty list of planners does not count as planners handed in:
    the configuration object is left exactly as it was, so a [planner] key
    it has is retained, and [build_simulations] is called on it with the
    empty list as [pre_built_planners]. *)
Theorem C10_empty_list_keeps_config_planner ext w :
  let r := run_simulation ext (PList []) w in
  let evs := emitted (run_simulation ext (PList [])) w in
  w_cfg r.2 = w_cfg w
  ∧ (∀ v, content (w_cfg w) !! "planner" = Some v →
          content (w_cfg r.2) !! "planner" = Some v)
  ∧ List.filter is_cfg_mutation evs = []
  ∧ normalize_planners (PList []) = PList []
  ∧ (∀ i c cbs wk pl cw,
       evs !! i = Some (EvBuildSimulations c cbs wk pl cw) →
       c = w_cfg w ∧ pl = PList [])
  ∧ (r.1 = Ok tt →
     ∃ i cbs wk cw, evs !! i = Some (EvBuildSimulations (w_cfg w) cbs wk (PList []) cw)).
Proof.
  intros r evs.
  pose proof (run_simulation_falsy_cfg ext (PList []) w eq_refl) as Hcfg.
  destruct (run_simulation_falsy ext (PList []) w eq_refl) as (Hmut & Hbs & Hlive).
  refine (conj Hcfg (conj _ (conj Hmut (conj eq_refl (conj Hbs Hlive))))).
  intros v Hv. subst r. rewrite Hcfg. exact Hv.
Qed.

Lemma C10_empty_list_witness :
  let w := Stub.world (Stub.cfg "/local/exp1" VNone) "/tmp" [] in
  content (w_cfg (run_simulation (Stub.ext None) (PList []) w).2) !! "planner"
  = Some (VDict [("ml_planner", VDict [])])
  ∧ ∃ i cbs wk cw,
      emitted (run_simulation (Stub.ext None) (PList [])) w !! i
      = Some (EvBuildSimulations (w_cfg w) cbs wk (PList []) cw).
Proof.
  intros w.
  destruct (C10_empty_list_keeps_config_planner (Stub.ext None) w)
    as (_ & Hkey & _ & _ & _ & Hlive).
  split.
  - apply Hkey. vm_compute. reflexivity.
  - apply Hlive. vm_compute. reflexivity.
Defined.

(** ** Run Orchestrator: what it does to the configuration *)

(** C8: a run changes the configuration object at most once. Either no step
    changes it and it is left as it was, or the only changing steps are
    one unlock, pop [planner], relock bracket, consecutive in the trace,
    after which struct mode is on and the [planner] key is gone. In both
    cases every key other than [planner] reads as before. *)
Theorem C8_config_mutated_once_in_bracket ext planners w :
  let r := run_simulation ext planners w in
  let evs := emitted (run_simulation ext planners) w in
  ((List.filter is_cfg_mutation evs = [] ∧ w_cfg r.2 = w_cfg w)
   ∨ (∃ pre post v,
        evs = pre ++ pop_bracket "planner" ++ post
        ∧ List.filter is_cfg_mutation pre = []
        ∧ List.filter is_cfg_mutation post = []
        ∧ content (w_cfg w) !! "planner" = Some v
        ∧ w_cfg r.2 = {| struct_flag := Some true;
                         content := delete "planner" (content (w_cfg w)) |}))
  ∧ (∀ k, k ≠ "planner" → content (w_cfg r.2) !! k = content (w_cfg w) !! k).
Proof.
  destruct w as [[sf c] d f t]; destruct planners as [|p|[|p ps]].
  all: run_cases.
  all: split;
    [ first
        [ left; split; reflexivity
        | right; eexists [_; _; _; _; _], _, _;
          do 4 (split; [reflexivity|]); reflexivity ]
    | intros k Hk;
      first [ reflexivity | apply lookup_delete_ne; congruence ] ].
Qed.

Lemma C8_config_mutated_once_witness :
  let w := Stub.world (Stub.cfg "/local/exp1" VNone) "/tmp" [] in
  content (w_cfg (run_simulation (Stub.ext None) (PSingle (planner_obj 1)) w).2) !! "seed"
  = Some (VInt 0).
Proof.
  intros w.
  destruct (C8_config_mutated_once_in_bracket (Stub.ext None) (PSingle (planner_obj 1)) w)
    as [_ Hframe].
  rewrite Hframe; [vm_compute; reflexivity | discriminate].
Defined.

(** ** Run Orchestrator: order of construction, profiling and execution *)

(** Steps of the proof of C7, one for each part of the statement. *)

Ltac c7_built n :=
  solve [ exists n; do 6 eexists;
          split; [lia | split; [reflexivity | eassumption]] ].

Ltac c7_constructed n :=
  solve [ exists 1%nat, 2%nat, 3%nat, n; do 7 eexists;
          refine (conj _ (conj _ (conj eq_refl (conj _ (conj eq_refl
                   (conj eq_refl (conj eq_refl _)))))));
          first [ lia | eassumption ] ].

Ltac c7_saved n :=
  solve [ exists n; split; [lia | split];
          [ cbn [lookup list_lookup]; congruence
          | destruct_all unit; congruence ] ].

Ltac c7_save ext :=
  let H := fresh "H" in
  intros kx qx nx H; at_index H kx;
  (injection H as <- <-;
   refine (conj eq_refl (conj _ _));
   [ first [ c7_built 4%nat | c7_built 8%nat ]
   | let He := fresh "He" in let Hex := fresh "Hex" in
     intros ix ex He Hex; at_index He ix;
     first [ lia | injection He as <-; discriminate Hex ] ]).

Ltac c7_run :=
  let H := fresh "H" in
  intros ix rsx cbx cx nx H; at_index H ix;
  (injection H as <- <- <- <-;
   refine (conj eq_refl (conj _ (conj _ _)));
   [ first [ c7_constructed 4%nat | c7_constructed 8%nat ]
   | let He := fresh "He" in let Hc := fresh "Hc" in
     intros jx ex He Hc; at_index He jx;
     first [ lia | injection He as <-; discriminate Hc ]
   | let Hp := fresh "Hp" in
     intros px Hp;
     first [ congruence
           | first [ c7_saved 5%nat | c7_saved 9%nat ] ] ]).

Ltac c7_name :=
  let He := fresh "He" in let Hs := fresh "Hs" in
  intros jx ex He Hs; at_index He jx;
  (injection He as <-; first [ reflexivity | discriminate Hs ]).

Ltac c7_after_build :=
  let Hb := fresh "Hb" in let Hr := fresh "Hr" in let Hs := fresh "Hs" in
  let Hcb := fresh "Hcb" in let Hp := fresh "Hp" in
  intros jx cx cbsx wkx plx cwx rsx ix c0x n0x cbx px Hb Hr Hs Hcb Hp;
  at_index Hb jx;
  (injection Hb as <- <- <- <- <-;
   at_index Hs ix;
   (injection Hs as <- <-; cbn [lookup list_lookup]; congruence)).

Ltac c7_live :=
  let H := fresh "H" in
  intros H; try discriminate H;
  (first [ exists 6%nat; do 3 eexists; reflexivity
         | exists 7%nat; do 3 eexists; reflexivity
         | exists 10%nat; do 3 eexists; reflexivity
         | exists 11%nat; do 3 eexists; reflexivity ]).
(** C7: in every run, a profiling session is saved only under the name
    [building_simulation], only after [build_simulations] has returned and
    before any call of [run_runners]; [run_runners] is called only with the
    name [running_simulation], only after the context, the callback worker,
    the callbacks and the runners were built in that order, and, when the
    context has a profiler, only after that profiler saved the building
    session; no other call carries the name [running_simulation]; when
    the context has a profiler, the return of [build_simulations] is
    followed at once by the saving of the building session; a run that
    completes has called [run_runners]. *)
Theorem C7_profiling_sessions_bracket_phases ext planners w :
  let r := run_simulation ext planners w in
  let evs := emitted (run_simulation ext planners) w in
  (∀ k q n,
     evs !! k = Some (EvSaveProfiler q n) →
     n = "building_simulation"
     ∧ (∃ j c cbs wk pl cw rs,
          (j < k)%nat ∧ evs !! j = Some (EvBuildSimulations c cbs wk pl cw)
          ∧ on_build_simulations ext c cbs wk pl cw = Ok rs)
     ∧ (∀ i e, evs !! i = Some e → is_execution e = true → (k < i)%nat))
  ∧ (∀ i rs cb c n,
       evs !! i = Some (EvRunRunners rs cb c n) →
       n = "running_simulation"
       ∧ (∃ i0 i1 i2 i3 c0 c1 c2 c3 cw cbs pl,
            (i0 < i1 < i2)%nat ∧ (i2 < i3 < i)%nat
            ∧ evs !! i0 = Some (EvSetUpCommonBuilder c0 "building_simulation")
            ∧ on_set_up_common_builder ext c0 "building_simulation" = Ok cb
            ∧ evs !! i1 = Some (EvBuildCallbacksWorker c1)
            ∧ evs !! i2 = Some (EvBuildSimulationCallbacks c2 (output_dir cb) cw)
            ∧ evs !! i3 = Some (EvBuildSimulations c3 cbs (worker cb) pl cw)
            ∧ on_build_simulations ext c3 cbs (worker cb) pl cw = Ok rs)
       ∧ (∀ j e, evs !! j = Some e → is_construction e = true → (j < i)%nat)
       ∧ (∀ p, profiler cb = Some p →
               ∃ k, (k < i)%nat
                    ∧ evs !! k = Some (EvSaveProfiler p "building_simulation")
                    ∧ on_save_profiler ext p "building_simulation" = Ok tt))
  ∧ (∀ j e, evs !! j = Some e →
            session_name e = Some "running_simulation" → is_execution e = true)
  ∧ (∀ j c cbs wk pl cw rs i0 c0 n0 cb p,
       evs !! j = Some (EvBuildSimulations c cbs wk pl cw) →
       on_build_simulations ext c cbs wk pl cw = Ok rs →
       evs !! i0 = Some (EvSetUpCommonBuilder c0 n0) →
       on_set_up_common_builder ext c0 n0 = Ok cb →
       profiler cb = Some p →
       evs !! S j = Some (EvSaveProfiler p "building_simulation"))
  ∧ (r.1 = Ok tt →
     ∃ i rs cb c, evs !! i = Some (EvRunRunners rs cb c "running_simulation")).
Proof.
  run_abstract r evs.
  destruct w as [[sf c] d f t]; destruct planners as [|p|[|p ps]].
  all: run_cases; intros <- <-; cbv beta iota delta [fst snd].
  all: (refine (conj _ (conj _ (conj _ (conj _ _))));
        [ c7_save ext | c7_run | c7_name | c7_after_build | c7_live ]).
Qed.

Lemma C7_profiling_sessions_witness :
  let w := Stub.world (Stub.cfg "/local/exp1" VNone) "/tmp" [] in
  let ext := Stub.ext (Some (profiler_obj 7)) in
  ∃ k, (k < 7)%nat
       ∧ emitted (run_simulation ext PNone) w !! k
         = Some (EvSaveProfiler (profiler_obj 7) "building_simulation")
       ∧ on_save_profiler ext (profiler_obj 7) "building_simulation" = Ok tt.
Proof.
  intros w ext.
  destruct (C7_profiling_sessions_bracket_phases ext PNone w) as (_ & Hrun & _).
  destruct (Hrun 7%nat [runner_obj 0]
              (Stub.common_builder (Pathlib.of_str "/local/exp1") (Some (profiler_obj 7)))
              (w_cfg w) "running_simulation") as (_ & _ & _ & Hsaved).
  - vm_compute. reflexivity.
  - apply Hsaved. reflexivity.
Defined.

(** ** Entry Point: the precondition on [simulation_log_main_path] *)

(** C1, as the code has it: the check is made by [main], not by
    [run_simulation]. When [simulation_log_main_path] is set to a value
    other than [None], [main] raises the assertion error and leaves the
    world as it found it: no event is added, so [run_simulation] is not
    entered and no collaborator is called. *)
Theorem C1_main_rejects_preset_log_path ext w v :
  content (w_cfg w) !! "simulation_log_main_path" = Some v →
  v ≠ VNone →
  main ext w
  = (Raise (AssertionError
              "Simulation_log_main_path must not be set when running simulation."), w)
  ∧ emitted (main ext) w = [].
Proof.
  intros Hv Hset.
  assert (Hmain : main ext w
                  = (Raise (AssertionError
                       "Simulation_log_main_path must not be set when running simulation."),
                     w)).
  { unfold main, bind, cfg_getattr. rewrite Hv.
    destruct v; try reflexivity. congruence. }
  split; [exact Hmain|].
  unfold emitted. rewrite Hmain. cbn [snd]. apply drop_all.
Qed.

Lemma C1_main_rejects_witness :
  let w := Stub.world (Stub.cfg "/local/exp1" (VStr "/logs")) "/tmp" [] in
  emitted (main (Stub.ext None)) w = [].
Proof.
  intros w.
  apply (C1_main_rejects_preset_log_path (Stub.ext None) w (VStr "/logs")).
  - vm_compute. reflexivity.
  - discriminate.
Defined.

(** C1, as stated, fails: [run_simulation] itself does not look at
    [simulation_log_main_path]; with the path set it calls its
    collaborators and completes. *)
Lemma C1_run_simulation_accepts_preset_log_path :
  ¬ (∀ ext planners w v,
       content (w_cfg w) !! "simulation_log_main_path" = Some v →
       v ≠ VNone →
       (∃ msg, (run_simulation ext planners w).1 = Raise (AssertionError msg))
       ∧ List.filter is_collaborator_call (emitted (run_simulation ext planners) w) = []).
Proof.
  intros Hclaim.
  destruct (Hclaim (Stub.ext None) PNone
              (Stub.world (Stub.cfg "/local/exp1" (VStr "/logs")) "/tmp" [])
              (VStr "/logs")) as [[msg Hr] _].
  - vm_compute. reflexivity.
  - discriminate.
  - vm_compute in Hr. discriminate Hr.
Qed.

(** ** Artifact Cleaner *)

(** Without the marker in the working directory the cleaner only asks for
    the working directory. *)
Lemma clean_up_no_marker w :
  ¬ contains (w_cwd w) "s3:" →
  clean_up_s3_artifacts w = (Ok tt, with_trace (w_trace w ++ [EvGetcwd]) w).
Proof.
  intros Hno. apply find_none in Hno.
  unfold clean_up_s3_artifacts, os_getcwd, bind, emit.
  cbn [w_cwd with_trace]. rewrite Hno. reflexivity.
Qed.

(** With the marker it calls [rmtree] on the prefix that ends in the first
    occurrence of the marker. *)
Lemma clean_up_marker w :
  contains (w_cwd w) "s3:" →
  ∃ a b,
    w_cwd w = a +:+ "s3:" +:+ b
    ∧ (∀ a' b', w_cwd w = a' +:+ "s3:" +:+ b' →
                (String.length a ≤ String.length a')%nat)
    ∧ a +:+ "s3:"
      = PyStr.slice_to (w_cwd w) (PyStr.find (w_cwd w) "s3:" + PyStr.len "s3:")
    ∧ clean_up_s3_artifacts w
      = if bool_decide (a +:+ "s3:" ∈ w_fs w)
        then (Ok tt,
              with_fs (filter (λ q, at_or_beneath (a +:+ "s3:") q = false) (w_fs w))
                (with_trace (w_trace w ++ [EvGetcwd; EvRmtree (a +:+ "s3:")]) w))
        else (Raise (FileNotFoundError (a +:+ "s3:")),
              with_trace (w_trace w ++ [EvGetcwd; EvRmtree (a +:+ "s3:")]) w).
Proof.
  intros Hc.
  destruct (find_first _ _ Hc) as (a & b & Hs & Hfind & Hslice & Hmin).
  exists a, b. split; [exact Hs|]. split; [exact Hmin|].
  split; [symmetry; exact Hslice|].
  unfold clean_up_s3_artifacts, os_getcwd, rmtree, bind, emit.
  cbn [w_cwd with_trace]. rewrite Hslice.
  pose proof (len_nonneg a).
  destruct (Z.eqb_spec (PyStr.find (w_cwd w) "s3:") (-1)) as [Heq|_]; [lia|].
  cbn [negb w_fs w_trace with_trace w_cfg w_cwd].
  rewrite <- app_assoc. cbn [app].
  destruct (bool_decide (a +:+ "s3:" ∈ w_fs w)); reflexivity.
Qed.

Lemma classic_contains s : contains s "s3:" ∨ ¬ contains s "s3:".
Proof.
  destruct (Z.eq_dec (PyStr.find s "s3:") (-1)) as [Heq|Hne].
  - right. apply find_none. exact Heq.
  - left. destruct (find_from_spec "s3:" s 0) as [[Hr _]|(a & b & Hs & _)].
    + contradiction.
    + exists a, b. exact Hs.
Qed.

Lemma emitted_with_trace {A} (m : M A) w (r : Res A) w' evs :
  m w = (r, w') → w_trace w' = w_trace w ++ evs → emitted m w = evs.
Proof.
  intros Hm Ht. unfold emitted. rewrite Hm. cbn [snd]. rewrite Ht.
  apply drop_app_length.
Qed.

(** C4: when the working directory contains [s3:], the cleaner calls
    [rmtree] on a prefix of the working directory that ends in the marker;
    if that directory exists the call returns and the directory and all
    beneath it are gone, nothing else being touched, and if it does not
    exist the [FileNotFoundError] of [rmtree] is raised and nothing is
    deleted. When the working directory does not contain [s3:], the cleaner
    returns without raising and deletes nothing. For
    [/tmp/run123/s3:/exp1/job1] the tree deleted is [/tmp/run123/s3:];
    for [/tmp/run123/local/exp1] none is. *)
Theorem C4_cleanup_deletes_marker_prefix w :
  (contains (w_cwd w) "s3:" →
   ∃ a b,
     w_cwd w = a +:+ "s3:" +:+ b
     ∧ emitted clean_up_s3_artifacts w = [EvGetcwd; EvRmtree (a +:+ "s3:")]
     ∧ (a +:+ "s3:" ∈ w_fs w →
        (clean_up_s3_artifacts w).1 = Ok tt
        ∧ ∀ q, q ∈ w_fs (clean_up_s3_artifacts w).2
               ↔ q ∈ w_fs w ∧ at_or_beneath (a +:+ "s3:") q = false)
     ∧ (a +:+ "s3:" ∉ w_fs w →
        (clean_up_s3_artifacts w).1 = Raise (FileNotFoundError (a +:+ "s3:"))
        ∧ w_fs (clean_up_s3_artifacts w).2 = w_fs w))
  ∧ (¬ contains (w_cwd w) "s3:" →
     (clean_up_s3_artifacts w).1 = Ok tt
     ∧ w_fs (clean_up_s3_artifacts w).2 = w_fs w
     ∧ emitted clean_up_s3_artifacts w = [EvGetcwd])
  ∧ (w_cwd w = "/tmp/run123/s3:/exp1/job1" →
     emitted clean_up_s3_artifacts w = [EvGetcwd; EvRmtree "/tmp/run123/s3:"])
  ∧ (w_cwd w = "/tmp/run123/local/exp1" →
     (clean_up_s3_artifacts w).1 = Ok tt
     ∧ w_fs (clean_up_s3_artifacts w).2 = w_fs w
     ∧ emitted clean_up_s3_artifacts w = [EvGetcwd]).
Proof.
  assert (Hno : ¬ contains (w_cwd w) "s3:" →
                (clean_up_s3_artifacts w).1 = Ok tt
                ∧ w_fs (clean_up_s3_artifacts w).2 = w_fs w
                ∧ emitted clean_up_s3_artifacts w = [EvGetcwd]).
  { intros H. pose proof (clean_up_no_marker w H) as Hrun.
    rewrite (emitted_with_trace _ _ _ _ _ Hrun eq_refl), Hrun. auto. }
  assert (Hyes : contains (w_cwd w) "s3:" →
     ∃ a b,
       w_cwd w = a +:+ "s3:" +:+ b
       ∧ emitted clean_up_s3_artifacts w = [EvGetcwd; EvRmtree (a +:+ "s3:")]
       ∧ (a +:+ "s3:" ∈ w_fs w →
          (clean_up_s3_artifacts w).1 = Ok tt
          ∧ ∀ q, q ∈ w_fs (clean_up_s3_artifacts w).2
                 ↔ q ∈ w_fs w ∧ at_or_beneath (a +:+ "s3:") q = false)
       ∧ (a +:+ "s3:" ∉ w_fs w →
          (clean_up_s3_artifacts w).1 = Raise (FileNotFoundError (a +:+ "s3:"))
          ∧ w_fs (clean_up_s3_artifacts w).2 = w_fs w)).
  { intros H. destruct (clean_up_marker w H) as (a & b & Hs & _ & _ & Hrun).
    exists a, b. split; [exact Hs|].
    case_bool_decide as Hin.
    - rewrite (emitted_with_trace _ _ _ _ _ Hrun eq_refl), Hrun.
      split; [reflexivity|]. split; [|contradiction].
      intros _. split; [reflexivity|].
      intros q. cbn [snd w_fs with_fs]. rewrite elem_of_filter. tauto.
    - rewrite (emitted_with_trace _ _ _ _ _ Hrun eq_refl), Hrun.
      split; [reflexivity|]. split; [contradiction|].
      intros _. split; reflexivity. }
  split; [exact Hyes|]. split; [exact Hno|]. split.
  - intros Hcwd.
    destruct (clean_up_marker w) as (a & b & _ & _ & Hslice & Hrun).
    { exists "/tmp/run123/", "/exp1/job1". rewrite Hcwd. reflexivity. }
    rewrite Hcwd in Hslice.
    assert (a +:+ "s3:" = "/tmp/run123/s3:") as Hpre
      by (rewrite Hslice; vm_compute; reflexivity).
    rewrite Hpre in Hrun.
    case_bool_decide; apply (emitted_with_trace _ _ _ _ _ Hrun eq_refl).
  - intros Hcwd. apply Hno. apply find_none. rewrite Hcwd. vm_compute. reflexivity.
Qed.

Lemma C4_cleanup_witness :
  let fs := ["/tmp"; "/tmp/run123"; "/tmp/run123/s3:"; "/tmp/run123/s3:/exp1";
             "/tmp/run123/s3:/exp1/job1"; "/tmp/run123/s3:old"] in
  let w := Stub.world (Stub.cfg "s3://bucket/exp1" VNone) "/tmp/run123/s3:/exp1/job1" fs in
  emitted clean_up_s3_artifacts w = [EvGetcwd; EvRmtree "/tmp/run123/s3:"]
  ∧ elements (w_fs (clean_up_s3_artifacts w).2)
    = ["/tmp/run123/s3:old"; "/tmp/run123"; "/tmp"].
Proof.
  intros fs w.
  destruct (C4_cleanup_deletes_marker_prefix w) as (_ & _ & Hex & _).
  split.
  - apply Hex. reflexivity.
  - vm_compute. reflexivity.
Defined.

(** C9: the tree deleted is the prefix that ends in the first occurrence of
    the marker: if [a] is the shortest text after which [s3:] occurs in the
    working directory, [rmtree] is called on [a] followed by [s3:], and on
    no prefix that ends in a later occurrence. *)
Theorem C9_cleanup_uses_first_marker w a b :
  w_cwd w = a +:+ "s3:" +:+ b →
  (∀ a' b', w_cwd w = a' +:+ "s3:" +:+ b' →
            (String.length a ≤ String.length a')%nat) →
  emitted clean_up_s3_artifacts w = [EvGetcwd; EvRmtree (a +:+ "s3:")]
  ∧ (a +:+ "s3:" ∈ w_fs w →
     ∀ q, q ∈ w_fs (clean_up_s3_artifacts w).2
          ↔ q ∈ w_fs w ∧ at_or_beneath (a +:+ "s3:") q = false)
  ∧ (∀ a' b', w_cwd w = a' +:+ "s3:" +:+ b' →
              (String.length a < String.length a')%nat →
              EvRmtree (a' +:+ "s3:") ∉ emitted clean_up_s3_artifacts w).
Proof.
  intros Hs Hmin.
  destruct (clean_up_marker w) as (a0 & b0 & Hs0 & Hmin0 & _ & Hrun).
  { exists a, b. exact Hs. }
  assert (a0 = a) as ->.
  { apply (app_inj_length a0 a ("s3:" +:+ b0) ("s3:" +:+ b)); [congruence|].
    pose proof (Hmin _ _ Hs0). pose proof (Hmin0 _ _ Hs). lia. }
  assert (Hev : emitted clean_up_s3_artifacts w = [EvGetcwd; EvRmtree (a +:+ "s3:")]).
  { case_bool_decide; apply (emitted_with_trace _ _ _ _ _ Hrun eq_refl). }
  split; [exact Hev|]. split.
  - intros Hin q. rewrite Hrun. rewrite bool_decide_eq_true_2 by exact Hin.
    cbn [snd w_fs with_fs]. rewrite elem_of_filter. tauto.
  - intros a' b' Hs' Hlt Hin'. rewrite Hev in Hin'.
    apply elem_of_cons in Hin' as [Heq|Hin']; [discriminate Heq|].
    apply elem_of_cons in Hin' as [Heq|Hin']; [|by apply elem_of_nil in Hin'].
    injection Heq as Heq.
    assert (String.length (a' +:+ "s3:") = String.length (a +:+ "s3:")) as Hlen
      by (rewrite Heq; reflexivity).
    pose proof (len_app a' "s3:") as H1. pose proof (len_app a "s3:") as H2.
    unfold PyStr.len in H1, H2. lia.
Qed.

Lemma C9_cleanup_first_marker_witness :
  let w := Stub.world (Stub.cfg "s3://bucket/exp1" VNone) "/data/s3:/run/s3:/job" [] in
  emitted clean_up_s3_artifacts w = [EvGetcwd; EvRmtree "/data/s3:"]
  ∧ EvRmtree "/data/s3:/run/s3:" ∉ emitted clean_up_s3_artifacts w.
Proof.
  intros w.
  assert (Hfirst : ∀ a' b', w_cwd w = a' +:+ "s3:" +:+ b' →
                            (String.length "/data/" ≤ String.length a')%nat).
  { intros a' b' Hs.
    destruct (find_first (w_cwd w) "s3:") as (a0 & b0 & _ & Hfind & _ & Hmin0).
    { exists a', b'. exact Hs. }
    specialize (Hmin0 _ _ Hs).
    assert (String.length a0 = 6%nat) as Hlen
      by (apply Nat2Z.inj; symmetry; exact Hfind).
    rewrite Hlen in Hmin0. exact Hmin0. }
  destruct (C9_cleanup_uses_first_marker w "/data/" "/run/s3:/job" eq_refl Hfirst)
    as (Hev & _ & Hlater).
  split; [exact Hev|].
  apply (Hlater "/data/s3:/run/" "/job"); [reflexivity | cbn; lia].
Defined.


(** ** Entry Point: when the cleaner runs *)

(** The cleaner starts by adding [EvGetcwd] to the trace. *)
Lemma clean_up_trace w :
  ∃ rest, w_trace (clean_up_s3_artifacts w).2 = w_trace w ++ EvGetcwd :: rest.
Proof.
  destruct (classic_contains (w_cwd w)) as [Hc|Hno].
  - destruct (clean_up_marker w Hc) as (a & b & _ & _ & _ & Hrun).
    exists [EvRmtree (a +:+ "s3:")]. rewrite Hrun. case_bool_decide; reflexivity.
  - exists []. rewrite (clean_up_no_marker w Hno). reflexivity.
Qed.

(** After a run that completes, [main] goes on to the cleaner or stops,
    as [is_s3_path] says of the configured output directory. *)
Lemma main_after_run ext w out w1 :
  content (w_cfg w) !! "simulation_log_main_path" = Some VNone →
  content (w_cfg w) !! "output_dir" = Some (VStr out) →
  run_simulation ext PNone w = (Ok tt, w1) →
  main ext w = if is_s3_path ext (Pathlib.of_str out)
               then clean_up_s3_artifacts w1
               else (Ok tt, w1).
Proof.
  intros Hlog Hout Hrun.
  pose proof (run_simulation_falsy_cfg ext PNone w eq_refl) as Hcfg.
  rewrite Hrun in Hcfg. cbn [snd] in Hcfg.
  unfold main, bind, cfg_getattr, py_assert, Path_of, ret.
  rewrite Hlog. cbn [is_None]. rewrite Hrun, Hcfg, Hout.
  destruct (is_s3_path ext (Pathlib.of_str out)); reflexivity.
Qed.

(** C5: after a run of [run_simulation] that completes, [main] invokes the
    cleaner exactly when [is_s3_path] holds of the configured output
    directory. With the scheme-prefix check of the spec for [is_s3_path],
    the cleaner is invoked for [s3://bucket/exp1] and is not invoked for
    [/local/exp1]. *)
Theorem C5_cleanup_iff_s3_output ext w out w1 :
  content (w_cfg w) !! "simulation_log_main_path" = Some VNone →
  content (w_cfg w) !! "output_dir" = Some (VStr out) →
  run_simulation ext PNone w = (Ok tt, w1) →
  (cleaner_invoked (emitted (main ext) w)
   ↔ is_s3_path ext (Pathlib.of_str out) = true)
  ∧ (is_s3_path ext (Pathlib.of_str out) = true →
     main ext w = clean_up_s3_artifacts w1)
  ∧ (is_s3_path ext (Pathlib.of_str out) = false →
     main ext w = (Ok tt, w1)
     ∧ List.filter is_cleanup_event (emitted (main ext) w) = [])
  ∧ (is_s3_path ext = spec_is_s3_path → out = "s3://bucket/exp1" →
     cleaner_invoked (emitted (main ext) w))
  ∧ (is_s3_path ext = spec_is_s3_path → out = "/local/exp1" →
     ¬ cleaner_invoked (emitted (main ext) w)).
Proof.
  intros Hlog Hout Hrun.
  pose proof (main_after_run ext w out w1 Hlog Hout Hrun) as Hmain.
  pose proof (run_simulation_trace ext PNone w) as Htrace.
  destruct (run_simulation_frame ext PNone w) as (_ & _ & Hquiet).
  rewrite Hrun in Htrace. cbn [snd] in Htrace.
  assert (Hyes : is_s3_path ext (Pathlib.of_str out) = true →
                 cleaner_invoked (emitted (main ext) w)).
  { intros Hs3. rewrite Hs3 in Hmain.
    destruct (clean_up_trace w1) as [rest Hrest].
    unfold cleaner_invoked, emitted. rewrite Hmain, Hrest, Htrace.
    rewrite <- app_assoc, drop_app_length.
    apply elem_of_app. right. apply elem_of_cons. left. reflexivity. }
  assert (Hno : is_s3_path ext (Pathlib.of_str out) = false →
                main ext w = (Ok tt, w1)
                ∧ List.filter is_cleanup_event (emitted (main ext) w) = []).
  { intros Hs3. rewrite Hs3 in Hmain. split; [exact Hmain|].
    unfold emitted at 1. rewrite Hmain. cbn [snd]. rewrite Htrace.
    rewrite drop_app_length. exact Hquiet. }
  assert (Hnot : is_s3_path ext (Pathlib.of_str out) = false →
                 ¬ cleaner_invoked (emitted (main ext) w)).
  { intros Hs3 Hin. destruct (Hno Hs3) as [_ Hfil].
    unfold cleaner_invoked in Hin. apply list_elem_of_In in Hin.
    assert (In EvGetcwd (List.filter is_cleanup_event (emitted (main ext) w))) as Hin'
      by (apply filter_In; split; [exact Hin | reflexivity]).
    rewrite Hfil in Hin'. exact Hin'. }
  split; [|split; [|split; [exact Hno|split]]].
  - split; [|exact Hyes].
    intros Hin. destruct (is_s3_path ext (Pathlib.of_str out)) eqn:Hs3; [reflexivity|].
    exfalso. exact (Hnot eq_refl Hin).
  - intros Hs3. rewrite Hs3 in Hmain. exact Hmain.
  - intros Hext ->. apply Hyes. rewrite Hext. vm_compute. reflexivity.
  - intros Hext ->. apply Hnot. rewrite Hext. vm_compute. reflexivity.
Qed.

Lemma C5_cleanup_iff_witness :
  let w := Stub.world (Stub.cfg "s3://bucket/exp1" VNone) "/tmp/run123/s3:/exp1/job1"
             ["/tmp/run123/s3:"] in
  cleaner_invoked (emitted (main (Stub.ext None)) w).
Proof.
  intros w.
  destruct (C5_cleanup_iff_s3_output (Stub.ext None) w "s3://bucket/exp1"
              (run_simulation (Stub.ext None) PNone w).2) as (_ & _ & _ & Hs3 & _).
  - vm_compute. reflexivity.
  - vm_compute. reflexivity.
  - vm_compute. reflexivity.
  - apply Hs3; reflexivity.
Defined.

(** ** Path Resolver *)

(** The last separator of [x/y], where [y] has none, is the one written. *)
Lemma rfind_char_app_sep x y :
  PyStr.rfind_char y "/" = -1 →
  PyStr.rfind_char (x +:+ "/" +:+ y) "/" = PyStr.len x.
Proof.
  intros Hy. induction x as [|a x IH].
  - rewrite !str_app_nil, str_app_cons, str_app_nil.
    cbn [PyStr.rfind_char]. rewrite Hy. reflexivity.
  - rewrite str_app_cons. cbn [PyStr.rfind_char]. rewrite IH.
    pose proof (len_nonneg x).
    destruct (Z.eqb_spec (PyStr.len x) (-1)); [lia|].
    unfold PyStr.len. cbn [String.length]. lia.
Qed.

Lemma basename_app_sep x y :
  PyStr.rfind_char y "/" = -1 →
  PosixPath.basename (x +:+ "/" +:+ y) = y.
Proof.
  intros Hy. unfold PosixPath.basename, PyStr.slice_from, PyStr.clamp.
  rewrite (rfind_char_app_sep x y Hy).
  pose proof (len_nonneg x).
  destruct (Z.ltb_spec (PyStr.len x + 1) 0); [lia|].
  replace (Z.to_nat (PyStr.len x + 1)) with (String.length (x +:+ "/")).
  - rewrite <- app_assoc_str. apply drop_app_length_str.
  - apply Nat2Z.inj. rewrite Z2Nat.id by lia.
    change (Z.of_nat (String.length (x +:+ "/"))) with (PyStr.len (x +:+ "/")).
    rewrite len_app. reflexivity.
Qed.

Lemma ends_with_char_app c s :
  PyStr.ends_with_char c s = true → ∃ x, s = x +:+ String c "".
Proof.
  induction s as [|a s IH]; [discriminate|].
  destruct s as [|b s].
  - cbn [PyStr.ends_with_char]. intros H%Ascii.eqb_eq. subst. exists "". reflexivity.
  - intros H. destruct (IH H) as [x Hx]. exists (String a x).
    rewrite str_app_cons. congruence.
Qed.

(** Joining [simulation] to any directory gives a path whose last
    component is [simulation]. *)
Lemma basename_join_simulation p :
  PosixPath.basename (PosixPath.join p "simulation") = "simulation".
Proof.
  unfold PosixPath.join.
  change (PyStr.startswith "simulation" PosixPath.sep) with false. cbv iota.
  destruct (String.eqb_spec p "") as [->|Hne].
  - reflexivity.
  - cbn [orb]. destruct (PyStr.ends_with_char "/" p) eqn:Hend.
    + destruct (ends_with_char_app _ _ Hend) as [x ->].
      rewrite app_assoc_str. apply basename_app_sep. reflexivity.
    + apply basename_app_sep. reflexivity.
Qed.

(** C6: with the override set to [v], the path is [v] joined to
    [../../../../] (which for a relative [v] is that prefix followed by
    [v]), kept as it is when its last component is [simulation] and joined
    with [simulation] otherwise; without the override it is
    [config/simulation]. In every case the last component of the resolved
    path is [simulation], and the configuration name is
    [default_simulation]. *)
Theorem C6_config_path_resolution :
  (∀ environ v,
     environ !! "NUPLAN_HYDRA_CONFIG_PATH" = Some v →
     let joined := PosixPath.join "../../../../" v in
     (PyStr.startswith v "/" = false → joined = "../../../../" +:+ v)
     ∧ (PosixPath.basename joined = "simulation" → CONFIG_PATH environ = joined)
     ∧ (PosixPath.basename joined ≠ "simulation" →
        CONFIG_PATH environ = PosixPath.join joined "simulation"
        ∧ (PyStr.ends_with_char "/" joined = false →
           CONFIG_PATH environ = joined +:+ "/simulation")
        ∧ (PyStr.ends_with_char "/" joined = true →
           CONFIG_PATH environ = joined +:+ "simulation")))
  ∧ (∀ environ,
       environ !! "NUPLAN_HYDRA_CONFIG_PATH" = None →
       CONFIG_PATH environ = "config/simulation")
  ∧ (∀ environ, PosixPath.basename (CONFIG_PATH environ) = "simulation")
  ∧ CONFIG_NAME = "default_simulation"
  ∧ CONFIG_PATH {[ "NUPLAN_HYDRA_CONFIG_PATH" := "custom/config/path" ]}
    = "../../../../custom/config/path/simulation"
  ∧ CONFIG_PATH {[ "NUPLAN_HYDRA_CONFIG_PATH" := "exp/config/simulation" ]}
    = "../../../../exp/config/simulation".
Proof.
  split; [|split; [|split; [|split; [|split]]]].
  - intros environ v Hv joined.
    assert (Hcp : CONFIG_PATH environ
                  = if negb (String.eqb (PosixPath.basename joined) "simulation")
                    then PosixPath.join joined "simulation" else joined).
    { unfold CONFIG_PATH, getenv. rewrite Hv. reflexivity. }
    split; [|split].
    + intros Hrel. subst joined. unfold PosixPath.join.
      change PosixPath.sep with "/". rewrite Hrel. reflexivity.
    + intros Hb. rewrite Hcp, Hb. reflexivity.
    + intros Hb. apply String.eqb_neq in Hb. rewrite Hcp, Hb. cbn [negb].
      split; [reflexivity|].
      assert (Hne : String.eqb joined "" = false).
      { subst joined. unfold PosixPath.join. change PosixPath.sep with "/".
        destruct (PyStr.startswith v "/") eqn:Habs; [|reflexivity].
        apply prefix_iff in Habs as [r ->]. reflexivity. }
      assert (Hj : PosixPath.join joined "simulation"
                   = if PyStr.ends_with_char "/" joined
                     then joined +:+ "simulation" else joined +:+ "/simulation").
      { unfold PosixPath.join.
        change (PyStr.startswith "simulation" PosixPath.sep) with false. cbv iota.
        rewrite Hne. cbn [orb]. reflexivity. }
      rewrite Hj. split; intros Hend; rewrite Hend; reflexivity.
  - intros environ Hnone. unfold CONFIG_PATH, getenv. rewrite Hnone.
    reflexivity.
  - intros environ. unfold CONFIG_PATH.
    destruct (String.eqb_spec
                (PosixPath.basename
                   match environ !! "NUPLAN_HYDRA_CONFIG_PATH" with
                   | Some _ =>
                       PosixPath.join "../../../../"
                         (getenv environ "NUPLAN_HYDRA_CONFIG_PATH" "config/simulation")
                   | None => getenv environ "NUPLAN_HYDRA_CONFIG_PATH" "config/simulation"
                   end) "simulation") as [Heq|Hne]; cbn [negb].
    + exact Heq.
    + apply basename_join_simulation.
  - reflexivity.
  - vm_compute. reflexivity.
  - vm_compute. reflexivity.
Qed.

Lemma C6_config_path_witness :
  CONFIG_PATH {[ "NUPLAN_HYDRA_CONFIG_PATH" := "custom/config/path" ]}
  = "../../../../custom/config/path" +:+ "/simulation"
  ∧ CONFIG_PATH ∅ = "config/simulation".
Proof.
  destruct C6_config_path_resolution as (Hset & Hunset & _).
  split.
  - destruct (Hset {[ "NUPLAN_HYDRA_CONFIG_PATH" := "custom/config/path" ]}
                "custom/config/path") as (_ & _ & Happend).
    + vm_compute. reflexivity.
    + destruct Happend as (_ & Hsep & _).
      * vm_compute. discriminate.
      * apply Hsep. vm_compute. reflexivity.
  - apply Hunset. vm_compute. reflexivity.
Defined.

(** ** Run Orchestrator: failures *)


(** X2: the closing log line is written exactly by the runs that
    complete, and it is then the last thing done. *)
Theorem X2_finished_logged_iff_completed ext planners w :
  let r := run_simulation ext planners w in
  let evs := emitted (run_simulation ext planners) w in
  (r.1 = Ok tt ↔ EvLogInfo "Finished running simulation!" ∈ evs)
  ∧ (r.1 = Ok tt → last evs = Some (EvLogInfo "Finished running simulation!")).
Proof.
  run_abstract r evs.
  destruct w as [[sf c] d f t]; destruct planners as [|p|[|p ps]].
  all: run_cases; intros <- <-; cbv beta iota delta [fst snd].
  all: (split; [split|]).
  all: intros Hin.
  all: try discriminate Hin.
  all: try reflexivity.
  all: try solve [ repeat first [ apply list_elem_of_here | apply list_elem_of_further ] ].
  all: repeat (apply elem_of_cons in Hin as [Hin|Hin]; [discriminate Hin|]).
  all: by apply elem_of_nil in Hin.
Qed.


Lemma X2_finished_logged_witness :
  let w := Stub.world (Stub.cfg "/local/exp1" VNone) "/tmp" [] in
  last (emitted (run_simulation (Stub.ext None) PNone) w)
  = Some (EvLogInfo "Finished running simulation!").
Proof.
  intros w.
  destruct (X2_finished_logged_iff_completed (Stub.ext None) PNone w) as [_ Hlast].
  apply Hlast. vm_compute. reflexivity.
Defined.

(** ** Run Orchestrator: the calls it makes *)

(** X3: the collaborator calls of a run are an initial part of the
    sequence set_up_common_builder, build_callbacks_worker,
    build_simulation_callbacks, build_simulations, save_profiler (when the
    context has a profiler), run_runners: none is made twice, none out of
    turn. *)
Theorem X3_collaborators_called_once_in_order ext planners w :
  let evs := emitted (run_simulation ext planners) w in
  calls evs `prefix_of` calls_with_profiler
  ∨ calls evs `prefix_of` calls_without_profiler.
Proof.
  intros evs.
  assert (Hevs : emitted (run_simulation ext planners) w = evs) by reflexivity.
  clearbody evs. revert Hevs.
  destruct w as [[sf c] d f t]; destruct planners as [|p|[|p ps]].
  all: run_cases; intros <-.
  all: cbv [calls calls_with_profiler calls_without_profiler];
       cbn [omap list_omap call_kind].
  all: first [ left; eexists; reflexivity | right; eexists; reflexivity ].
Qed.

(** X4: [build_simulations] is called with what the earlier calls
    returned: the worker of the build context, the callback worker that
    [build_callbacks_worker] returned, and the callbacks that
    [build_simulation_callbacks] returned for the output directory of the
    context and that callback worker, all three built from the
    configuration as handed in. [run_runners] then gets the runners that
    call returned, the same context and the same configuration. *)
Theorem X4_runners_built_from_what_was_built ext planners w :
  let evs := emitted (run_simulation ext planners) w in
  ∀ i c cbs wk pl cw,
    evs !! i = Some (EvBuildSimulations c cbs wk pl cw) →
    ∃ cb,
      on_set_up_common_builder ext (w_cfg w) "building_simulation" = Ok cb
      ∧ wk = worker cb
      ∧ on_build_callbacks_worker ext (w_cfg w) = Ok cw
      ∧ on_build_simulation_callbacks ext (w_cfg w) (output_dir cb) cw = Ok cbs
      ∧ (∀ j rs cb' c' n,
           evs !! j = Some (EvRunRunners rs cb' c' n) →
           c' = c ∧ cb' = cb ∧ on_build_simulations ext c cbs wk pl cw = Ok rs).
Proof.
  intros evs.
  assert (Hevs : emitted (run_simulation ext planners) w = evs) by reflexivity.
  clearbody evs. revert Hevs.
  destruct w as [[sf c] d f t]; destruct planners as [|p|[|p ps]].
  all: run_cases; intros <-.
  all: intros ix cx cbsx wkx plx cwx Hb; at_index Hb ix;
       (injection Hb as <- <- <- <- <-;
        eexists;
        refine (conj _ (conj eq_refl (conj _ (conj _ _))));
        try solve [ eassumption | reflexivity ];
        intros jx rsx cbx c1x nx Hr; at_index Hr jx;
        (injection Hr as <- <- <- <-;
         refine (conj eq_refl (conj eq_refl _)); eassumption)).
Qed.

Lemma X4_runners_built_witness :
  let w := Stub.world (Stub.cfg "/local/exp1" VNone) "/tmp" [] in
  ∃ cb, on_build_simulation_callbacks (Stub.ext None) (w_cfg w) (output_dir cb)
          (worker_obj 1) = Ok [callback_obj 0].
Proof.
  intros w.
  destruct (X4_runners_built_from_what_was_built (Stub.ext None) PNone w 4%nat
              (w_cfg w) [callback_obj 0] (worker_obj 0) PNone (worker_obj 1))
    as (cb & _ & _ & _ & Hcbs & _).
  - vm_compute. reflexivity.
  - exists cb. exact Hcbs.
Defined.

(** X5: whatever is handed in, [build_simulations] receives the normalized
    planners, never a bare planner object, and never planners together
    with a configuration that still has a [planner] key. *)
Theorem X5_never_config_planner_and_prebuilt ext planners w :
  let evs := emitted (run_simulation ext planners) w in
  ∀ i c cbs wk pl cw,
    evs !! i = Some (EvBuildSimulations c cbs wk pl cw) →
    pl = normalize_planners planners
    ∧ (∀ P, pl ≠ PSingle P)
    ∧ truthy pl = truthy planners
    ∧ (truthy pl = true → content c !! "planner" = None).
Proof.
  intros evs.
  assert (Hevs : emitted (run_simulation ext planners) w = evs) by reflexivity.
  clearbody evs. revert Hevs.
  destruct w as [[sf c] d f t]; destruct planners as [|p|[|p ps]].
  all: run_cases; intros <-.
  all: intros ix cx cbsx wkx plx cwx Hb; at_index Hb ix;
       (injection Hb as <- <- <- <- <-;
        refine (conj eq_refl (conj _ (conj eq_refl _)));
        [ intros P HP; discriminate HP
        | intros Ht;
          first [ discriminate Ht | apply lookup_delete_eq | assumption ] ]).
Qed.

Lemma X5_never_both_witness :
  let w := Stub.world (Stub.cfg "/local/exp1" VNone) "/tmp" [] in
  let c := {| struct_flag := Some true;
              content := delete "planner" (content (w_cfg w)) |} in
  content c !! "planner" = None.
Proof.
  intros w c.
  destruct (X5_never_config_planner_and_prebuilt (Stub.ext None)
              (PList [planner_obj 1; planner_obj 2]) w 8%nat c [callback_obj 0]
              (worker_obj 0) (PList [planner_obj 1; planner_obj 2]) (worker_obj 1))
    as (_ & _ & _ & Hkey).
  - vm_compute. reflexivity.
  - apply Hkey. reflexivity.
Defined.

(** X6: a run changes the configuration exactly when planners were handed
    in, the configuration has a [planner] key and the run gets as far as
    building the runners. It then makes the three steps of the bracket
    and leaves the configuration in struct mode without the key, whatever
    its struct flag was before; in every other run it makes no such step
    and leaves the configuration as it was. *)
Theorem X6_config_changes_exactly_when_merge_fires ext planners w :
  let r := run_simulation ext planners w in
  let evs := emitted (run_simulation ext planners) w in
  if merge_fires planners (w_cfg w) evs
  then List.filter is_cfg_mutation evs = pop_bracket "planner"
       ∧ w_cfg r.2 = {| struct_flag := Some true;
                        content := delete "planner" (content (w_cfg w)) |}
  else List.filter is_cfg_mutation evs = [] ∧ w_cfg r.2 = w_cfg w.
Proof.
  run_abstract r evs.
  destruct w as [[sf c] d f t]; destruct planners as [|p|[|p ps]].
  all: run_cases; intros <- <-.
  all: cbv [merge_fires truthy w_cfg content];
       cbn [existsb is_build_simulations orb andb snd];
       rewrite ?Hget0, ?Hget1, ?Hget; cbn [andb].
  all: split; reflexivity.
Qed.

(** ** Entry Point: what [main] does around the run *)

Lemma filter_nil_weaken {A} (f g : A → bool) (l : list A) :
  (∀ x, g x = true → f x = true) → List.filter f l = [] → List.filter g l = [].
Proof.
  intros Hfg. induction l as [|x l IH]; [reflexivity|].
  cbn [List.filter]. destruct (f x) eqn:Hf; [discriminate|].
  destruct (g x) eqn:Hg; [|exact IH].
  rewrite (Hfg x Hg) in Hf. discriminate Hf.
Qed.

(** The cleaner leaves the configuration and the working directory alone,
    and without the marker the file system too. *)
Lemma clean_up_frame w :
  w_cfg (clean_up_s3_artifacts w).2 = w_cfg w
  ∧ w_cwd (clean_up_s3_artifacts w).2 = w_cwd w
  ∧ (¬ contains (w_cwd w) "s3:" →
     w_fs (clean_up_s3_artifacts w).2 = w_fs w
     ∧ emitted clean_up_s3_artifacts w = [EvGetcwd]).
Proof.
  destruct (classic_contains (w_cwd w)) as [Hc|Hno].
  - destruct (clean_up_marker w Hc) as (a & b & _ & _ & _ & Hrun).
    rewrite Hrun. case_bool_decide; (split; [reflexivity|split; [reflexivity|tauto]]).
  - pose proof (clean_up_no_marker w Hno) as Hrun.
    rewrite (emitted_with_trace _ _ _ _ _ Hrun eq_refl), Hrun.
    split; [reflexivity|split; [reflexivity|]]. intros _. split; reflexivity.
Qed.

(** [main], step by step, in terms of the run it starts. *)
Lemma main_unfold ext w :
  main ext w
  = match content (w_cfg w) !! "simulation_log_main_path" with
    | None => (Raise (ConfigAttributeError "simulation_log_main_path"), w)
    | Some v =>
        if is_None v then
          match run_simulation ext PNone w with
          | (Raise e, w1) => (Raise e, w1)
          | (Ok _, w1) =>
              match content (w_cfg w) !! "output_dir" with
              | None => (Raise (ConfigAttributeError "output_dir"), w1)
              | Some (VStr out) =>
                  if is_s3_path ext (Pathlib.of_str out)
                  then clean_up_s3_artifacts w1
                  else (Ok tt, w1)
              | Some _ => (Raise TypeError, w1)
              end
          end
        else (Raise (AssertionError
                       "Simulation_log_main_path must not be set when running simulation."),
              w)
    end.
Proof.
  pose proof (run_simulation_falsy_cfg ext PNone w eq_refl) as Hcfg.
  unfold main, bind, cfg_getattr, py_assert, Path_of, ret, raise.
  destruct (content (w_cfg w) !! "simulation_log_main_path") as [v|]; [|reflexivity].
  destruct (is_None v); [|reflexivity].
  destruct (run_simulation ext PNone w) as [[u|e] w1]; [|reflexivity].
  cbn [snd] in Hcfg. rewrite Hcfg.
  destruct (content (w_cfg w) !! "output_dir") as [[| | |out|]|]; try reflexivity.
  destruct (is_s3_path ext (Pathlib.of_str out)); reflexivity.
Qed.

(** X7: [main] never changes the configuration object or the working
    directory, however it ends: it starts the run without planners, so the
    planner of the configuration is always the one used. *)
Theorem X7_main_leaves_configuration ext w :
  w_cfg (main ext w).2 = w_cfg w
  ∧ w_cwd (main ext w).2 = w_cwd w.
Proof.
  pose proof (run_simulation_falsy_cfg ext PNone w eq_refl) as Hcfg.
  destruct (run_simulation_frame ext PNone w) as (Hcwd & _ & _).
  rewrite main_unfold.
  destruct (content (w_cfg w) !! "simulation_log_main_path") as [v|]; [|done].
  destruct (is_None v); [|done].
  destruct (run_simulation ext PNone w) as [[u|e] w1]; cbn [snd] in *; [|done].
  destruct (content (w_cfg w) !! "output_dir") as [[| | |out|]|]; try done.
  destruct (is_s3_path ext (Pathlib.of_str out)); [|done].
  destruct (clean_up_frame w1) as (Hc & Hd & _). rewrite Hc, Hd. done.
Qed.

(** X8: when the run raises, [main] raises the same exception and stops
    there: the cleaner is not invoked and nothing is deleted, also for a
    remote output directory. *)
Theorem X8_main_no_cleanup_after_failed_run ext w e :
  content (w_cfg w) !! "simulation_log_main_path" = Some VNone →
  (run_simulation ext PNone w).1 = Raise e →
  main ext w = (Raise e, (run_simulation ext PNone w).2)
  ∧ List.filter is_cleanup_event (emitted (main ext) w) = []
  ∧ w_fs (main ext w).2 = w_fs w.
Proof.
  intros Hlog Hr.
  destruct (run_simulation_frame ext PNone w) as (_ & Hfs & Hquiet).
  assert (Hmain : main ext w = (Raise e, (run_simulation ext PNone w).2)).
  { rewrite main_unfold, Hlog. cbn [is_None].
    destruct (run_simulation ext PNone w) as [[u|e'] w1]; cbn [fst snd] in *;
      [discriminate Hr | congruence]. }
  split; [exact Hmain|]. split.
  - unfold emitted at 1. rewrite Hmain. cbn [snd]. exact Hquiet.
  - rewrite Hmain. cbn [snd]. exact Hfs.
Qed.

Lemma X8_main_no_cleanup_witness :
  let c := {| struct_flag := Some true;
              content := {[ "seed" := VInt 0;
                            "output_dir" := VStr "s3://bucket/exp1";
                            "simulation_log_main_path" := VNone ]} |} in
  let w := Stub.world c "/tmp/run123/s3:/exp1/job1" ["/tmp/run123/s3:"] in
  w_fs (main ext_build_fails w).2 = w_fs w.
Proof.
  intros c w.
  apply (X8_main_no_cleanup_after_failed_run ext_build_fails w (CollaboratorError 3)).
  - vm_compute. reflexivity.
  - vm_compute. reflexivity.
Defined.

(** X9: [main] deletes nothing unless the output directory is a remote
    path and the working directory contains the marker: if [is_s3_path]
    is false of the configured output directory, or the working directory
    has no [s3:] in it, the file system is left as it was and [rmtree] is
    not called, however the run ends. *)
Theorem X9_main_deletes_only_for_s3_and_marker ext w :
  (∀ out, content (w_cfg w) !! "output_dir" = Some (VStr out) →
          is_s3_path ext (Pathlib.of_str out) = false)
  ∨ ¬ contains (w_cwd w) "s3:" →
  w_fs (main ext w).2 = w_fs w
  ∧ List.filter is_rmtree (emitted (main ext) w) = [].
Proof.
  intros Hsafe.
  pose proof (run_simulation_trace ext PNone w) as Htrace.
  destruct (run_simulation_frame ext PNone w) as (Hcwd & Hfs & Hquiet).
  assert (Hq : List.filter is_rmtree (emitted (run_simulation ext PNone) w) = []).
  { revert Hquiet. apply filter_nil_weaken. intros [] H; done. }
  assert (Hstop : ∀ (r : Res unit),
            w_fs (run_simulation ext PNone w).2 = w_fs w
            ∧ List.filter is_rmtree
                (emitted (λ _, (r, (run_simulation ext PNone w).2)) w) = []).
  { intros r. split; [exact Hfs|]. unfold emitted at 1. cbn [snd]. exact Hq. }
  unfold emitted at 1. rewrite main_unfold.
  destruct (content (w_cfg w) !! "simulation_log_main_path") as [v|];
    [|cbn [snd]; rewrite drop_all; done].
  destruct (is_None v); [|cbn [snd]; rewrite drop_all; done].
  destruct (run_simulation ext PNone w) as [[u|e] w1] eqn:Hrun; cbn [snd] in *;
    [|exact (Hstop (Raise e))].
  destruct (content (w_cfg w) !! "output_dir") as [[| | |out|]|] eqn:Hout;
    try exact (Hstop (Raise TypeError));
    try exact (Hstop (Raise (ConfigAttributeError "output_dir"))).
  destruct (is_s3_path ext (Pathlib.of_str out)) eqn:Hs3; [|exact (Hstop (Ok tt))].
  destruct Hsafe as [Hlocal|Hno]; [rewrite (Hlocal out eq_refl) in Hs3; discriminate|].
  rewrite <- Hcwd in Hno.
  destruct (clean_up_frame w1) as (_ & _ & Hkeep).
  destruct (Hkeep Hno) as [Hfs1 Hev1].
  pose proof (clean_up_no_marker w1 Hno) as Hclean.
  rewrite Hclean. cbn [snd w_fs w_trace with_trace]. split; [exact Hfs|].
  rewrite Htrace, <- app_assoc, drop_app_length.
  rewrite List.filter_app, Hq. reflexivity.
Qed.

Lemma X9_main_deletes_only_witness :
  let w := Stub.world (Stub.cfg "s3://bucket/exp1" VNone) "/tmp/run123/local/exp1"
             ["/tmp/run123"; "/tmp/run123/local"] in
  w_fs (main (Stub.ext None) w).2 = w_fs w.
Proof.
  intros w.
  apply (X9_main_deletes_only_for_s3_and_marker (Stub.ext None) w).
  right. apply find_none. vm_compute. reflexivity.
Defined.

(** ** Path Resolver: overrides at the edges *)

Lemma str_app_nil_r a : a +:+ "" = a.
Proof. induction a as [|c a IH]; str_simp; [reflexivity | now rewrite IH]. Qed.

Lemma str_app_inv_head p x y : p +:+ x = p +:+ y → x = y.
Proof.
  induction p as [|c p IH]; rewrite ?str_app_nil, ?str_app_cons; [auto|].
  intros [= H]. auto.
Qed.

(** X10: an absolute override is not re-rooted: joining it to
    [../../../../] gives the override itself, so the resolved path is the
    override, with [simulation] joined on unless that is already its last
    component, and it is again absolute. *)
Theorem X10_absolute_override_not_rerooted environ v :
  environ !! "NUPLAN_HYDRA_CONFIG_PATH" = Some v →
  PyStr.startswith v "/" = true →
  PosixPath.join "../../../../" v = v
  ∧ (PosixPath.basename v = "simulation" → CONFIG_PATH environ = v)
  ∧ (PosixPath.basename v ≠ "simulation" →
     CONFIG_PATH environ = PosixPath.join v "simulation")
  ∧ PyStr.startswith (CONFIG_PATH environ) "/" = true.
Proof.
  intros Hv Habs.
  assert (Hj : PosixPath.join "../../../../" v = v).
  { unfold PosixPath.join. change PosixPath.sep with "/". rewrite Habs. reflexivity. }
  assert (Hcp : CONFIG_PATH environ
                = if negb (String.eqb (PosixPath.basename v) "simulation")
                  then PosixPath.join v "simulation" else v).
  { unfold CONFIG_PATH, getenv. rewrite Hv, Hj. reflexivity. }
  split; [exact Hj|]. split; [|split].
  - intros Hb. rewrite Hcp, Hb. reflexivity.
  - intros Hb. apply String.eqb_neq in Hb. rewrite Hcp, Hb. reflexivity.
  - rewrite Hcp. destruct (negb (String.eqb (PosixPath.basename v) "simulation"));
      [|exact Habs].
    apply prefix_iff in Habs as [r ->].
    unfold PosixPath.join.
    change (PyStr.startswith "simulation" PosixPath.sep) with false. cbv iota.
    destruct (String.eqb ("/" +:+ r) "" || PyStr.ends_with_char "/" ("/" +:+ r))%bool;
      apply prefix_iff; rewrite app_assoc_str; eauto.
Qed.

Lemma X10_absolute_override_witness :
  CONFIG_PATH {[ "NUPLAN_HYDRA_CONFIG_PATH" := "/opt/nuplan/config" ]}
  = PosixPath.join "/opt/nuplan/config" "simulation".
Proof.
  destruct (X10_absolute_override_not_rerooted
              {[ "NUPLAN_HYDRA_CONFIG_PATH" := "/opt/nuplan/config" ]}
              "/opt/nuplan/config") as (_ & _ & Happend & _).
  - vm_compute. reflexivity.
  - reflexivity.
  - apply Happend. vm_compute. discriminate.
Defined.

(** X11: an override written with a trailing slash has an empty last
    component, so [simulation] is always put after it, directly behind the
    slash; this also happens when the directory named is already
    [simulation], which then appears twice. *)
Theorem X11_trailing_slash_appends_simulation environ v :
  environ !! "NUPLAN_HYDRA_CONFIG_PATH" = Some v →
  PyStr.ends_with_char "/" v = true →
  PosixPath.basename (PosixPath.join "../../../../" v) = ""
  ∧ CONFIG_PATH environ = PosixPath.join "../../../../" v +:+ "simulation"
  ∧ (∀ x, v = x +:+ "simulation/" →
          PyStr.startswith x "/" = false →
          CONFIG_PATH environ = "../../../../" +:+ x +:+ "simulation/simulation").
Proof.
  intros Hv Hend.
  set (joined := PosixPath.join "../../../../" v).
  assert (Hj : joined = v ∨ joined = "../../../../" +:+ v).
  { subst joined. unfold PosixPath.join. change PosixPath.sep with "/".
    destruct (PyStr.startswith v "/"); [left|right]; reflexivity. }
  destruct (ends_with_char_app _ _ Hend) as [x0 Hx0].
  assert (Hsl : ∃ y, joined = y +:+ "/").
  { destruct Hj as [->| ->]; rewrite Hx0.
    - exists x0. reflexivity.
    - exists ("../../../../" +:+ x0). rewrite app_assoc_str. reflexivity. }
  destruct Hsl as [y Hy].
  assert (Hb : PosixPath.basename joined = "").
  { rewrite Hy. apply (basename_app_sep y ""). reflexivity. }
  assert (Hcp : CONFIG_PATH environ = joined +:+ "simulation").
  { unfold CONFIG_PATH, getenv. rewrite Hv. fold joined. rewrite Hb. cbn [negb String.eqb].
    unfold PosixPath.join.
    change (PyStr.startswith "simulation" PosixPath.sep) with false. cbv iota.
    assert (PyStr.ends_with_char "/" joined = true) as ->.
    { rewrite Hy. clear. induction y as [|c y IH]; [reflexivity|].
      rewrite str_app_cons. cbn [PyStr.ends_with_char].
      destruct (y +:+ "/") eqn:Hyy; [|exact IH].
      destruct y; discriminate Hyy. }
    rewrite orb_true_r. reflexivity. }
  split; [exact Hb|]. split; [exact Hcp|].
  intros x -> Hrel. rewrite Hcp. subst joined.
  assert (PyStr.startswith (x +:+ "simulation/") "/" = false) as Hst.
  { destruct x as [|c x]; [reflexivity|].
    rewrite str_app_cons. unfold PyStr.startswith in *. cbn [String.prefix] in *.
    destruct (ascii_dec "/" c); [|reflexivity].
    destruct x; discriminate Hrel. }
  assert (PosixPath.join "../../../../" (x +:+ "simulation/")
          = "../../../../" +:+ x +:+ "simulation/") as ->.
  { unfold PosixPath.join. change PosixPath.sep with "/". rewrite Hst. reflexivity. }
  rewrite !app_assoc_str. reflexivity.
Qed.

Lemma X11_trailing_slash_witness :
  CONFIG_PATH {[ "NUPLAN_HYDRA_CONFIG_PATH" := "exp/simulation/" ]}
  = "../../../../exp/simulation/simulation".
Proof.
  destruct (X11_trailing_slash_appends_simulation
              {[ "NUPLAN_HYDRA_CONFIG_PATH" := "exp/simulation/" ]}
              "exp/simulation/") as (_ & _ & Htwice).
  - vm_compute. reflexivity.
  - reflexivity.
  - apply (Htwice "exp/"); reflexivity.
Defined.

(** ** Artifact Cleaner: the working directory itself *)

(** X12: when the first marker ends a path component of the working
    directory (it is followed by [/] or by nothing) and the directory the
    cleaner aims at exists, the working directory itself is among what is
    deleted. When the marker is followed by other text, the working
    directory is not beneath the directory deleted and stays. *)
Theorem X12_cleanup_removes_working_directory w a b :
  w_cwd w = a +:+ "s3:" +:+ b →
  (∀ a' b', w_cwd w = a' +:+ "s3:" +:+ b' →
            (String.length a ≤ String.length a')%nat) →
  a +:+ "s3:" ∈ w_fs w →
  ((b = "" ∨ PyStr.startswith b "/" = true) →
   w_cwd w ∉ w_fs (clean_up_s3_artifacts w).2)
  ∧ (b ≠ "" → PyStr.startswith b "/" = false → w_cwd w ∈ w_fs w →
     w_cwd w ∈ w_fs (clean_up_s3_artifacts w).2).
Proof.
  intros Hs Hmin Hin.
  destruct (clean_up_marker w) as (a0 & b0 & Hs0 & Hmin0 & _ & Hrun).
  { exists a, b. exact Hs. }
  assert (a0 = a) as ->.
  { apply (app_inj_length a0 a ("s3:" +:+ b0) ("s3:" +:+ b)); [congruence|].
    pose proof (Hmin _ _ Hs0). pose proof (Hmin0 _ _ Hs). lia. }
  rewrite bool_decide_eq_true_2 in Hrun by exact Hin.
  rewrite Hrun. cbn [snd w_fs with_fs with_trace].
  assert (Hcwd : w_cwd w = (a +:+ "s3:") +:+ b) by (rewrite app_assoc_str; exact Hs).
  split.
  - intros Hseg Hkept. apply elem_of_filter in Hkept as [Hout _].
    unfold at_or_beneath in Hout. apply orb_false_elim in Hout as [Hne Hnp].
    destruct Hseg as [->|Hsl].
    + rewrite str_app_nil_r in Hcwd. rewrite Hcwd, String.eqb_refl in Hne.
      discriminate Hne.
    + apply prefix_iff in Hsl as [r ->].
      assert (PyStr.startswith (w_cwd w) ((a +:+ "s3:") +:+ "/") = true) as Hp.
      { apply prefix_iff. exists r. rewrite Hcwd, !app_assoc_str. reflexivity. }
      congruence.
  - intros Hb Hnsl Hexists. apply elem_of_filter. split; [|exact Hexists].
    unfold at_or_beneath. apply orb_false_intro.
    + apply String.eqb_neq. intros Heq. apply Hb.
      apply (str_app_inv_head (a +:+ "s3:")). rewrite str_app_nil_r. congruence.
    + destruct (PyStr.startswith (w_cwd w) ((a +:+ "s3:") +:+ "/")) eqn:Hp; [|reflexivity].
      apply prefix_iff in Hp as [r Hr].
      rewrite Hcwd, (app_assoc_str (a +:+ "s3:") "/" r) in Hr.
      apply str_app_inv_head in Hr.
      assert (PyStr.startswith b "/" = true) by (apply prefix_iff; eauto).
      congruence.
Qed.

Lemma X12_cleanup_removes_cwd_witness :
  let w := Stub.world (Stub.cfg "s3://bucket/exp1" VNone) "/tmp/run123/s3:/exp1/job1"
             ["/tmp/run123/s3:"; "/tmp/run123/s3:/exp1/job1"] in
  w_cwd w ∉ w_fs (clean_up_s3_artifacts w).2.
Proof.
  intros w.
  destruct (X12_cleanup_removes_working_directory w "/tmp/run123/" "/exp1/job1")
    as [Hgone _].
  - reflexivity.
  - intros a' b' Hs.
    destruct (find_first (w_cwd w) "s3:") as (a0 & b0 & _ & Hfind & _ & Hmin0).
    { exists a', b'. exact Hs. }
    specialize (Hmin0 _ _ Hs).
    assert (String.length a0 = 12%nat) as Hlen
      by (apply Nat2Z.inj; symmetry; exact Hfind).
    rewrite Hlen in Hmin0. exact Hmin0.
  - vm_compute. reflexivity.
  - apply Hgone. right. reflexivity.
Defined.
